(** * The embedded connector: chaincode registry, dispatch and identities

    A shallow embedding of
    [packages/composer-connector-embedded/lib/embeddedconnection.js].

    The two module-level tables ([businessNetworks], [chaincodes]) and the
    ['identities'] collection of the connection's data service are fields of
    an explicit [World] that every method threads through; [async] methods
    are computations in a state-and-exception monad in which a rejection
    keeps whatever the method has already written, exactly as a thrown
    JavaScript exception does.  The collaborators the file only consumes
    (container, engine, certificate utility, uuid generator, JSON) are the
    fields of a [Host] record, so that nothing about them is assumed. *)

From Stdlib Require Import Ascii.
From stdpp Require Import base option gmap strings list fin_maps.

Local Open Scope string_scope.

(** ** JavaScript values the connector looks at *)

(** What [securityContext.getChaincodeID()] can hand back: the id is [null]
    or [undefined] until [setChaincodeID] has been called. *)
Inductive JsId :=
| JsNull
| JsUndefined
| JsString (s : string).

(** Property-key coercion of [obj[k]]: [null] and [undefined] become the
    strings of their names. *)
Definition toPropertyKey (k : JsId) : string :=
  match k with
  | JsNull => "null"
  | JsUndefined => "undefined"
  | JsString s => s
  end.

(** [if (s)] on a string: only the empty string is falsy. *)
Definition truthy (s : string) : bool :=
  match s with
  | EmptyString => false
  | String _ _ => true
  end.

(** [if (o)] on a value that is a string or [undefined]. *)
Definition truthy_opt (o : option string) : bool :=
  match o with
  | Some s => truthy s
  | None => false
  end.

(** [if (o.flag)] on a flag that is a boolean or missing. *)
Definition truthy_flag (o : option bool) : bool :=
  match o with
  | Some b => b
  | None => false
  end.

(** ** Data model *)

(** The [options] object of an identity; [issuer] is the only key the
    connector reads, [affiliation] the other documented one. *)
Record Options := {
  options_issuer : option bool;
  options_affiliation : option string
}.

(** [{}] *)
Definition emptyOptions : Options :=
  {| options_issuer := None; options_affiliation := None |}.

Record Identity := {
  identifier : string;
  name : string;
  issuer : string;
  secret : string;
  certificate : string;
  publicKey : string;
  privateKey : string;
  imported : bool;
  options : Options
}.

(** An [EmbeddedContainer]: an object (its reference) that carries the UUID
    it drew when it was constructed. *)
Record Container := {
  container_ref : nat;
  getUUID : string
}.

(** An [Engine], constructed from its container. *)
Record Engine := {
  engine_ref : nat;
  getContainer : Container
}.

(** The object [addChaincode] stores. *)
Record Chaincode := {
  uuid : string;
  container : Container;
  engine : Engine
}.

(** The fields of the connection the methods read. [businessNetworkIdentifier]
    is [undefined] when the connection was opened without a network. *)
Record Connection := {
  connectionProfile : string;
  businessNetworkIdentifier : option string
}.

Record SecurityContext := {
  sc_connection : Connection;
  getIdentity_sc : Identity;
  getChaincodeID : JsId
}.

(** [new EmbeddedContext(engine, identity, connection)]. The engine argument
    is whatever [chaincode.engine] evaluated to. *)
Record EmbeddedContext := {
  ctx_engine : Engine;
  ctx_identity : Identity;
  ctx_connection : Connection
}.

(** [{ userID, userSecret }], the result of [createIdentity]. *)
Record UserCredentials := {
  userID : string;
  userSecret : string
}.

(** [{ publicKey, privateKey, certificate }], the result of
    [CertificateUtil.generate]. *)
Record KeyMaterial := {
  km_publicKey : string;
  km_privateKey : string;
  km_certificate : string
}.

#[global] Instance JsId_eq_dec : EqDecision JsId.
Proof. solve_decision. Defined.
#[global] Instance Options_eq_dec : EqDecision Options.
Proof. solve_decision. Defined.
#[global] Instance Identity_eq_dec : EqDecision Identity.
Proof. solve_decision. Defined.
#[global] Instance Container_eq_dec : EqDecision Container.
Proof. solve_decision. Defined.
#[global] Instance Engine_eq_dec : EqDecision Engine.
Proof. solve_decision. Defined.
#[global] Instance Chaincode_eq_dec : EqDecision Chaincode.
Proof. solve_decision. Defined.

(** ** Exceptions *)

(** Everything a method of the connector can reject with. *)
Inductive Exn :=
| Error (message : string)
    (** [throw new Error(message)] written in the connector itself *)
| TypeErrorReadOfUndefined (property : string)
    (** raised by the runtime for [undefined.property] *)
| CollectionNotFound (id : string)
    (** the identity collection's [get] on a missing key *)
| CollectionDuplicate (id : string)
    (** the identity collection's [add] on an existing key *)
| EngineFailure (message : string)
    (** whatever the engine rejected with, an object with a [message] *)
| TypeErrorInvalidArgument (callee : string).
    (** raised by a library function for an argument of a type it refuses,
        as [Buffer.from] does for [undefined] *)

#[global] Instance Exn_eq_dec : EqDecision Exn.
Proof. solve_decision. Defined.

(** The messages of the three [throw] statements of the file. *)

(** line 153, in [login] *)
Definition NoChaincodeID (network : string) : Exn :=
  Error ("No chaincode ID found for business network '" +:+ network +:+ "'").

(** line 314, in [testIdentity] *)
Definition SecretMismatch (identitySecret identityName stored : string) : Exn :=
  Error ("The secret " +:+ identitySecret +:+ " specified for the identity "
         +:+ identityName +:+ " does not match the stored secret " +:+ stored).

(** line 343, in [createIdentity] *)
Definition NotAnIssuer (current identityName : string) : Exn :=
  Error ("The identity " +:+ current
         +:+ " does not have permission to create a new identity "
         +:+ identityName).

(** ** The world and the collaborators *)

(** Calls that leave the connector, in the order they are made. *)
Inductive Call :=
| CallCreateContainer
| CallCreateEngine (c : Container)
| CallEngineInit (e : Engine) (fn : string) (args : list string)
| CallEngineQuery (e : Engine) (fn : string) (args : list string)
| CallEngineInvoke (e : Engine) (fn : string) (args : list string)
| CallEnsureCollection (id : string)
| CallCollectionGet (id : string)
| CallCollectionExists (id : string)
| CallCollectionAdd (id : string) (record : Identity)
| CallGenerate (commonName : string)
| CallUuidV4.

(** The names every plain object answers for without having been given
    them: the members of [Object.prototype]. *)
Definition ObjectPrototype_members : list string :=
  ["constructor"; "__defineGetter__"; "__defineSetter__"; "hasOwnProperty";
   "__lookupGetter__"; "__lookupSetter__"; "isPrototypeOf"; "propertyIsEnumerable";
   "toString"; "valueOf"; "__proto__"; "toLocaleString"].

Definition is_prototype_member (key : string) : bool :=
  bool_decide (key ∈ ObjectPrototype_members).

(** What [chaincodes[key]] evaluates to: the instance stored under the key,
    or, with nothing stored under it, the member of [Object.prototype] of
    that name (a function or an object, which has no [engine]), or
    [undefined]. *)
Inductive Slot :=
| SlotInstance (cc : Chaincode)
| SlotPrototypeMember (key : string)
| SlotUndefined.

(** The instance a read of the table has found, if it has found one. *)
Definition registered (slot : Slot) : option Chaincode :=
  match slot with
  | SlotInstance cc => Some cc
  | SlotPrototypeMember _ | SlotUndefined => None
  end.

(** The two tables are plain objects used as maps; the fields hold their
    own properties.  Binding keys have an [@] in them, which no member of
    [Object.prototype] has.  Instances are stored under the UUIDs of their
    containers; [__proto__], whose assignment would replace the prototype
    of the table instead of storing a property, is taken not to be one. *)
Record World := {
  businessNetworks : gmap string string;
    (** [const businessNetworks = {}], "network@profile" to chaincode id *)
  chaincodes : gmap string Chaincode;
    (** [const chaincodes = {}], chaincode id to instance object *)
  identities : gmap string Identity;
    (** the ['identities'] collection of [this.dataService] *)
  allocated : nat;
    (** how many objects and random draws the process has made so far *)
  calls : list Call
    (** the collaborator calls made so far, oldest first *)
}.

Definition set_businessNetworks (f : gmap string string -> gmap string string)
    (w : World) : World :=
  {| businessNetworks := f (businessNetworks w); chaincodes := chaincodes w;
     identities := identities w; allocated := allocated w; calls := calls w |}.

Definition set_chaincodes (f : gmap string Chaincode -> gmap string Chaincode)
    (w : World) : World :=
  {| businessNetworks := businessNetworks w; chaincodes := f (chaincodes w);
     identities := identities w; allocated := allocated w; calls := calls w |}.

Definition set_identities (f : gmap string Identity -> gmap string Identity)
    (w : World) : World :=
  {| businessNetworks := businessNetworks w; chaincodes := chaincodes w;
     identities := f (identities w); allocated := allocated w; calls := calls w |}.

Definition log (c : Call) (w : World) : World :=
  {| businessNetworks := businessNetworks w; chaincodes := chaincodes w;
     identities := identities w; allocated := allocated w;
     calls := calls w ++ [c] |}.

Definition tick (w : World) : World :=
  {| businessNetworks := businessNetworks w; chaincodes := chaincodes w;
     identities := identities w; allocated := S (allocated w);
     calls := calls w |}.

(** The result of an awaited call: the promise resolved or rejected. *)
Inductive Outcome (A : Type) :=
| Resolved (a : A)
| Rejected (e : Exn).
Arguments Resolved {A} a.
Arguments Rejected {A} e.

(** An [async] method: from the world it starts in to its outcome and the
    world it leaves. *)
Definition Async (A : Type) : Type := World -> Outcome A * World.

Definition resolve {A} (a : A) : Async A := fun w => (Resolved a, w).

Definition throw {A} (e : Exn) : Async A := fun w => (Rejected e, w).

Definition await {A B} (m : Async A) (k : A -> Async B) : Async B :=
  fun w =>
    match m w with
    | (Resolved a, w') => k a w'
    | (Rejected e, w') => (Rejected e, w')
    end.

(** [try { m } catch (error) { h error }] *)
Definition try_catch {A} (m : Async A) (h : Exn -> Async A) : Async A :=
  fun w =>
    match m w with
    | (Resolved a, w') => (Resolved a, w')
    | (Rejected e, w') => h e w'
    end.

Definition read {A} (f : World -> A) : Async A := fun w => (Resolved (f w), w).

Definition update (f : World -> World) : Async unit :=
  fun w => (Resolved tt, f w).

Declare Scope async_scope.
Delimit Scope async_scope with async.
Notation "'let!' x ':=' m 'in' k" := (await m (fun x => k))
  (at level 10, x name, m at level 100, k at level 200) : async_scope.
Notation "m ';;;' k" := (await m (fun _ => k))
  (at level 100, k at level 200, right associativity) : async_scope.
Local Open Scope async_scope.

(** [for (let id in table) { delete table[id]; }]: every key the table has
    when the loop starts is deleted, one after the other. *)
Definition delete_each {V : Type} (table : gmap string V) : gmap string V :=
  foldr delete table (elements (dom table)).

(** ** Collaborators

    Everything the connector calls but does not define.  Fresh objects and
    random draws are indexed by the allocation counter of the world, so two
    calls of the same factory can give two different results.  The engine's
    entry points see the world they are called in; the registry tables are
    private to the connector's module, so an engine call leaves them as
    they are. *)
Section Connector.

Variable Data : Type.

Record Host := {
  newContainerUUID : nat -> string;
    (** the UUID of the container constructed at this allocation *)
  CertificateUtil_generate : nat -> string -> KeyMaterial;
    (** [CertificateUtil.generate({ commonName })] *)
  Certificate_getIdentifier : string -> string;
  Certificate_getName : string -> string;
  Certificate_getIssuer : string -> string;
    (** [new Certificate(certificate).getX()] *)
  uuid_v4 : nat -> string;
    (** [uuid.v4()] *)
  engine_init : World -> EmbeddedContext -> string -> list string -> Outcome unit;
  engine_query : World -> EmbeddedContext -> string -> list string -> Outcome Data;
  engine_invoke : World -> EmbeddedContext -> string -> list string -> Outcome Data;
  JSON_stringify : Data -> Outcome (option string);
    (** [JSON.stringify(data)]: a text, [undefined] for data that has no
        JSON form, or an exception *)
  JSON_parse : string -> Outcome Data
}.

Variable host : Host.

(** *** The registry (static methods) *)

(** The template literal [`${businessNetworkIdentifier}@${connectionProfile}`]. *)
Definition bindingKey (businessNetworkIdentifier connectionProfile : string) : string :=
  businessNetworkIdentifier +:+ "@" +:+ connectionProfile.

Definition reset (w : World) : World :=
  set_chaincodes delete_each (set_businessNetworks delete_each w).

Definition addBusinessNetwork (businessNetworkIdentifier connectionProfile chaincodeUUID : string)
    (w : World) : World :=
  set_businessNetworks
    (fun m => <[bindingKey businessNetworkIdentifier connectionProfile := chaincodeUUID]> m) w.

Definition getBusinessNetwork (businessNetworkIdentifier connectionProfile : string)
    (w : World) : option string :=
  businessNetworks w !! bindingKey businessNetworkIdentifier connectionProfile.

Definition deleteBusinessNetwork (businessNetworkIdentifier connectionProfile : string)
    (w : World) : World :=
  match businessNetworks w !! bindingKey businessNetworkIdentifier connectionProfile with
  | Some chaincodeUUID =>
      if truthy chaincodeUUID then
        set_businessNetworks
          (fun m => delete (bindingKey businessNetworkIdentifier connectionProfile) m)
          (set_chaincodes (fun m => delete chaincodeUUID m) w)
      else w
  | None => w
  end.

Definition addChaincode (chaincodeUUID : string) (container : Container) (engine : Engine)
    (w : World) : World :=
  set_chaincodes
    (fun m => <[chaincodeUUID :=
                 {| uuid := chaincodeUUID; container := container; engine := engine |}]> m) w.

Definition getChaincode (chaincodeUUID : JsId) (w : World) : Slot :=
  match chaincodes w !! toPropertyKey chaincodeUUID with
  | Some cc => SlotInstance cc
  | None =>
      if is_prototype_member (toPropertyKey chaincodeUUID)
      then SlotPrototypeMember (toPropertyKey chaincodeUUID)
      else SlotUndefined
  end.

(** [new EmbeddedContainer()] *)
Definition createContainer : Async Container :=
  fun w =>
    (Resolved {| container_ref := allocated w;
                 getUUID := newContainerUUID host (allocated w) |},
     tick (log CallCreateContainer w)).

(** [new Engine(container)] *)
Definition createEngine (container : Container) : Async Engine :=
  fun w =>
    (Resolved {| engine_ref := allocated w; getContainer := container |},
     tick (log (CallCreateEngine container) w)).

(** *** Calls into the engine *)

Definition call_init (context : EmbeddedContext) (fn : string) (args : list string)
    : Async unit :=
  fun w =>
    let w' := log (CallEngineInit (ctx_engine context) fn args) w in
    (engine_init host w' context fn args, w').

Definition call_query (context : EmbeddedContext) (fn : string) (args : list string)
    : Async Data :=
  fun w =>
    let w' := log (CallEngineQuery (ctx_engine context) fn args) w in
    (engine_query host w' context fn args, w').

Definition call_invoke (context : EmbeddedContext) (fn : string) (args : list string)
    : Async Data :=
  fun w =>
    let w' := log (CallEngineInvoke (ctx_engine context) fn args) w in
    (engine_invoke host w' context fn args, w').

(** [chaincode.engine]: the engine of an instance, [undefined] on a member
    of [Object.prototype], a TypeError on [undefined]. *)
Definition read_engine (chaincode : Slot) : Async (option Engine) :=
  match chaincode with
  | SlotInstance c => resolve (Some (engine c))
  | SlotPrototypeMember _ => resolve None
  | SlotUndefined => throw (TypeErrorReadOfUndefined "engine")
  end.

(** Modelled from the spec: the execution context factory of section 6,
    [new EmbeddedContext(engine, identity, connection)], whose class is in
    composer-runtime-embedded.  Its constructor asks the engine for its
    container ([engine.getContainer()], which the tests stub on every
    engine they dispatch to), so that an [undefined] engine is a
    TypeError. *)
Definition new_EmbeddedContext (engine : option Engine) (identity : Identity)
    (connection : Connection) : Async EmbeddedContext :=
  match engine with
  | Some e =>
      resolve {| ctx_engine := e; ctx_identity := identity; ctx_connection := connection |}
  | None => throw (TypeErrorReadOfUndefined "getContainer")
  end.

(** [JSON.stringify(data)] *)
Definition stringify (data : Data) : Async (option string) :=
  fun w => (JSON_stringify host data, w).

(** [Buffer.from(text)]: the bytes of a text, a TypeError on [undefined]. *)
Definition Buffer_from (text : option string) : Async string :=
  match text with
  | Some t => resolve t
  | None => throw (TypeErrorInvalidArgument "Buffer.from")
  end.

(** *** Connection methods: registry and dispatch *)

Definition disconnect : Async unit := resolve tt.

Definition install (securityContext : SecurityContext)
    (businessNetworkIdentifier : string) : Async unit :=
  resolve tt.

Definition start (this : Connection) (securityContext : SecurityContext)
    (businessNetworkIdentifier startTransaction : string) : Async unit :=
  let! container := createContainer in
  let identity := getIdentity_sc securityContext in
  let chaincodeUUID := getUUID container in
  let! engine := createEngine container in
  update (addBusinessNetwork businessNetworkIdentifier (connectionProfile this) chaincodeUUID) ;;;
  update (addChaincode chaincodeUUID container engine) ;;;
  let context := {| ctx_engine := engine; ctx_identity := identity; ctx_connection := this |} in
  call_init context "init" [startTransaction].

Definition undeploy (this : Connection) (securityContext : SecurityContext)
    (businessNetworkIdentifier : string) : Async unit :=
  update (deleteBusinessNetwork businessNetworkIdentifier (connectionProfile this)).

Definition queryChainCode (this : Connection) (securityContext : SecurityContext)
    (functionName : string) (args : list string) : Async string :=
  let identity := getIdentity_sc securityContext in
  let chaincodeUUID := getChaincodeID securityContext in
  let! chaincode := read (getChaincode chaincodeUUID) in
  let! engine := read_engine chaincode in
  let! context := new_EmbeddedContext engine identity this in
  let! data := call_query context functionName args in
  let! text := stringify data in
  Buffer_from text.

Definition invokeChainCode (this : Connection) (securityContext : SecurityContext)
    (functionName : string) (args : list string) : Async unit :=
  let identity := getIdentity_sc securityContext in
  let chaincodeUUID := getChaincodeID securityContext in
  let! chaincode := read (getChaincode chaincodeUUID) in
  let! engine := read_engine chaincode in
  let! context := new_EmbeddedContext engine identity this in
  let! _ := call_invoke context functionName args in
  resolve tt.

Definition ping (this : Connection) (securityContext : SecurityContext) : Async Data :=
  let! buffer := queryChainCode this securityContext "ping" [] in
  fun w => (JSON_parse host buffer, w).

Definition createTransactionId (securityContext : SecurityContext) : Async (option string) :=
  resolve None.

(** *** The identity collection *)

(** Modelled from the spec: the data service and its collection live in
    composer-runtime; section 6 gives the contract used here,
    [ensureCollection] returning the collection, creating it if absent. *)
Definition ensureCollection (id : string) : Async unit :=
  update (log (CallEnsureCollection id)).

(** Modelled from the spec: [get(name) -> record | fails NotFound]. *)
Definition collection_get (id : string) : Async Identity :=
  fun w =>
    let w' := log (CallCollectionGet id) w in
    match identities w !! id with
    | Some record => (Resolved record, w')
    | None => (Rejected (CollectionNotFound id), w')
    end.

(** Modelled from the spec: [exists(name) -> bool]. *)
Definition collection_exists (id : string) : Async bool :=
  fun w =>
    (Resolved (bool_decide (is_Some (identities w !! id))),
     log (CallCollectionExists id) w).

(** Modelled from the spec: [add(name, record) -> fails on duplicate key]. *)
Definition collection_add (id : string) (record : Identity) : Async unit :=
  fun w =>
    let w' := log (CallCollectionAdd id record) w in
    match identities w !! id with
    | Some _ => (Rejected (CollectionDuplicate id), w')
    | None => (Resolved tt, set_identities (fun m => <[id := record]> m) w')
    end.

(** [CertificateUtil.generate({ commonName })] *)
Definition generate (commonName : string) : Async KeyMaterial :=
  fun w =>
    (Resolved (CertificateUtil_generate host (allocated w) commonName),
     tick (log (CallGenerate commonName) w)).

(** [uuid.v4()] *)
Definition v4 : Async string :=
  fun w => (Resolved (uuid_v4 host (allocated w)), tick (log CallUuidV4 w)).

(** *** Connection methods: identities *)

Definition getIdentities : Async unit := ensureCollection "identities".

Definition _createAdminIdentity : Async Identity :=
  let! keys := generate "admin" in
  let certificate_ := km_certificate keys in
  let identity :=
    {| identifier := Certificate_getIdentifier host certificate_;
       name := Certificate_getName host certificate_;
       issuer := Certificate_getIssuer host certificate_;
       secret := "adminpw";
       certificate := certificate_;
       publicKey := km_publicKey keys;
       privateKey := km_privateKey keys;
       imported := false;
       options := {| options_issuer := Some true; options_affiliation := None |} |} in
  let! identities := getIdentities in
  collection_add "admin" identity ;;;
  collection_add (identifier identity) identity ;;;
  resolve identity.

Definition getIdentity (identityName : string) : Async Identity :=
  let! identities := getIdentities in
  try_catch (collection_get identityName)
    (fun error =>
       if decide (identityName = "admin") then _createAdminIdentity
       else throw error).

Definition testIdentity (identityName identitySecret : string) : Async Identity :=
  let! identity := getIdentity identityName in
  if imported identity then resolve identity
  else if decide (identityName = "admin") then resolve identity
  else if negb (bool_decide (secret identity = identitySecret)) then
    throw (SecretMismatch identitySecret identityName (secret identity))
  else resolve identity.

Definition login (this : Connection) (enrollmentID enrollmentSecret : string)
    : Async SecurityContext :=
  let! identity := testIdentity enrollmentID enrollmentSecret in
  if negb (truthy_opt (businessNetworkIdentifier this)) then
    resolve {| sc_connection := this; getIdentity_sc := identity;
               getChaincodeID := JsNull |}
  else
    let network := default "" (businessNetworkIdentifier this) in
    let! chaincodeUUID := read (getBusinessNetwork network (connectionProfile this)) in
    if negb (truthy_opt chaincodeUUID) then throw (NoChaincodeID network)
    else
      resolve {| sc_connection := this; getIdentity_sc := identity;
                 getChaincodeID := JsString (default "" chaincodeUUID) |}.

Definition registryCheckRequired : bool := true.

Definition createIdentity (securityContext : SecurityContext) (identityName : string)
    (opts : option Options) : Async UserCredentials :=
  let currentIdentity := getIdentity_sc securityContext in
  if negb (truthy_flag (options_issuer (options currentIdentity))) then
    throw (NotAnIssuer (name currentIdentity) identityName)
  else
    let! identities := getIdentities in
    let! exists_ := collection_exists identityName in
    if (exists_ : bool) then
      let! identity := collection_get identityName in
      resolve {| userID := name identity; userSecret := secret identity |}
    else
      let! keys := generate identityName in
      let certificate_ := km_certificate keys in
      let! drawn := v4 in
      let identity :=
        {| identifier := Certificate_getIdentifier host certificate_;
           name := Certificate_getName host certificate_;
           issuer := Certificate_getIssuer host certificate_;
           secret := String.substring 0 8 drawn;
           certificate := certificate_;
           publicKey := km_publicKey keys;
           privateKey := km_privateKey keys;
           imported := false;
           options := default emptyOptions opts |} in
      collection_add identityName identity ;;;
      collection_add (identifier identity) identity ;;;
      resolve {| userID := name identity; userSecret := secret identity |}.

End Connector.

Arguments Host Data : clear implicits.
Arguments newContainerUUID {Data} h.
Arguments CertificateUtil_generate {Data} h.
Arguments Certificate_getIdentifier {Data} h.
Arguments Certificate_getName {Data} h.
Arguments Certificate_getIssuer {Data} h.
Arguments uuid_v4 {Data} h.
Arguments engine_init {Data} h.
Arguments engine_query {Data} h.
Arguments engine_invoke {Data} h.
Arguments JSON_stringify {Data} h.
Arguments JSON_parse {Data} h.
Arguments createContainer {Data} host.
Arguments call_init {Data} host context fn args.
Arguments call_query {Data} host context fn args.
Arguments call_invoke {Data} host context fn args.
Arguments stringify {Data} host data.
Arguments start {Data} host this securityContext businessNetworkIdentifier startTransaction.
Arguments queryChainCode {Data} host this securityContext functionName args.
Arguments invokeChainCode {Data} host this securityContext functionName args.
Arguments ping {Data} host this securityContext.
Arguments generate {Data} host commonName.
Arguments v4 {Data} host.
Arguments _createAdminIdentity {Data} host.
Arguments getIdentity {Data} host identityName.
Arguments testIdentity {Data} host identityName identitySecret.
Arguments login {Data} host this enrollmentID enrollmentSecret.
Arguments createIdentity {Data} host securityContext identityName opts.

(** ** Messages *)

Fixpoint is_prefix (p s : string) : bool :=
  match p, s with
  | EmptyString, _ => true
  | String a p', String b s' => bool_decide (a = b) && is_prefix p' s'
  | String _ _, EmptyString => false
  end.

(** [hay.includes(needle)] *)
Fixpoint includes (needle hay : string) : bool :=
  is_prefix needle hay ||
  match hay with
  | EmptyString => false
  | String _ rest => includes needle rest
  end.

(** A message carries a name when the name occurs in it. *)
Definition carries (message name : string) : Prop :=
  ∃ before after, message = before +:+ name +:+ after.

(** ** The failure kinds of the specification

    The connector throws plain [Error]s; the specification speaks of a
    taxonomy of typed failures.  These predicates say, in the
    specification's words, which exceptions count as which kind. *)



(** [ChaincodeNotFound]: a typed dispatch failure, that is, one the
    connector raises itself rather than one the runtime raises under it. *)
Definition spec_ChaincodeNotFound (e : Exn) : Prop :=
  ∃ message, e = Error message.

(** The instance table after [addChaincode] of a container and the engine
    made from it at the given allocation. *)
Definition addChaincode_entry (c : Container) (engine_at : nat)
    (m : gmap string Chaincode) : gmap string Chaincode :=
  <[getUUID c := {| uuid := getUUID c; container := c;
                    engine := {| engine_ref := engine_at; getContainer := c |} |}]> m.

(** The world after [n] further calls of [getIdentity("admin")]. *)
Fixpoint after_admin_lookups {Data : Type} (host : Host Data) (n : nat) (w : World) : World :=
  match n with
  | 0 => w
  | S n' => after_admin_lookups host n' (getIdentity host "admin" w).2
  end.

(** The world [getIdentity] leaves when it has only looked the name up. *)
Definition looked_up (identityName : string) (w : World) : World :=
  log (CallCollectionGet identityName) (log (CallEnsureCollection "identities") w).

(** ** Relations and invariants used to describe the methods *)

(** Every run of [m] takes the world it starts in to one related to it by
    [R], whether it resolves or rejects. *)
Definition steps (R : World → World → Prop) {A : Type} (m : Async A) : Prop :=
  ∀ w, R w (m w).2.

(** The later world has every identity record of the earlier one, the same
    registry tables, and a call log that extends the earlier one. *)
Definition only_adds_identities (w w' : World) : Prop :=
  identities w ⊆ identities w'
  ∧ businessNetworks w' = businessNetworks w
  ∧ chaincodes w' = chaincodes w
  ∧ calls w `prefix_of` calls w'.

(** The later world has the same identity collection and a call log that
    extends the earlier one. *)
Definition keeps_identities (w w' : World) : Prop :=
  identities w' = identities w ∧ calls w `prefix_of` calls w'.

(** Every stored record is also stored, the same, under its identifier. *)
Definition paired (m : gmap string Identity) : Prop :=
  ∀ key record, m !! key = Some record → m !! identifier record = Some record.

(** Every binding to a truthy id leads to a registered instance. *)
Definition bindings_live (w : World) : Prop :=
  ∀ key id, businessNetworks w !! key = Some id → truthy id = true →
            is_Some (chaincodes w !! id).

(** Every instance is registered under its own [uuid] field. *)
Definition chaincodes_keyed (w : World) : Prop :=
  ∀ key cc, chaincodes w !! key = Some cc → uuid cc = key.

(** The record [createIdentity] builds for a new name in world [w]. *)
Definition issued_record {Data : Type} (host : Host Data) (identityName : string)
    (opts : option Options) (w : World) : Identity :=
  let keys := CertificateUtil_generate host (allocated w) identityName in
  {| identifier := Certificate_getIdentifier host (km_certificate keys);
     name := Certificate_getName host (km_certificate keys);
     issuer := Certificate_getIssuer host (km_certificate keys);
     secret := String.substring 0 8 (uuid_v4 host (S (allocated w)));
     certificate := km_certificate keys;
     publicKey := km_publicKey keys;
     privateKey := km_privateKey keys;
     imported := false;
     options := default emptyOptions opts |}.

(** The record [_createAdminIdentity] builds in world [w]. *)
Definition bootstrap_admin {Data : Type} (host : Host Data) (w : World) : Identity :=
  let keys := CertificateUtil_generate host (allocated w) "admin" in
  {| identifier := Certificate_getIdentifier host (km_certificate keys);
     name := Certificate_getName host (km_certificate keys);
     issuer := Certificate_getIssuer host (km_certificate keys);
     secret := "adminpw";
     certificate := km_certificate keys;
     publicKey := km_publicKey keys;
     privateKey := km_privateKey keys;
     imported := false;
     options := {| options_issuer := Some true; options_affiliation := None |} |}.

(** What a dispatch rejects with when the id it is given resolves to no
    instance: reading [engine] of [undefined], or, when the id names a
    member of [Object.prototype], reading [getContainer] of the [undefined]
    engine of that member. *)
Definition unresolved_failure (chaincodeUUID : JsId) : Exn :=
  if is_prototype_member (toPropertyKey chaincodeUUID)
  then TypeErrorReadOfUndefined "getContainer"
  else TypeErrorReadOfUndefined "engine".

(** The instance [start] registers in world [w]. *)
Definition addChaincode_instance {Data : Type} (host : Host Data) (w : World) : Chaincode :=
  let c := {| container_ref := allocated w;
              getUUID := newContainerUUID host (allocated w) |} in
  {| uuid := getUUID c; container := c;
     engine := {| engine_ref := S (allocated w); getContainer := c |} |}.

(** ** Fixtures *)

Definition bob1 : Identity :=
  {| identifier := "ae360f8a430cc34deb2a8901ef3efed7a2eed753d909032a009f6984607be65a";
     name := "bob1";
     issuer := "ce295bc0df46512670144b84af55f3d9a3e71b569b1e38baba3f032dc3000665";
     secret := "suchsecret";
     certificate := "";
     publicKey := "";
     privateKey := "";
     imported := false;
     options := {| options_issuer := Some true; options_affiliation := None |} |}.

(** [bob1] after [identity.options.issuer = false]. *)
Definition bob1_no_issuer : Identity :=
  {| identifier := identifier bob1; name := name bob1; issuer := issuer bob1;
     secret := secret bob1; certificate := certificate bob1;
     publicKey := publicKey bob1; privateKey := privateKey bob1;
     imported := imported bob1;
     options := {| options_issuer := Some false; options_affiliation := None |} |}.

Definition devFabric1 : Connection :=
  {| connectionProfile := "devFabric1";
     businessNetworkIdentifier := Some "org.acme.business" |}.

Definition securityContextOf (identity : Identity) (chaincodeID : JsId) : SecurityContext :=
  {| sc_connection := devFabric1; getIdentity_sc := identity;
     getChaincodeID := chaincodeID |}.

Definition emptyWorld : World :=
  {| businessNetworks := ∅; chaincodes := ∅; identities := ∅;
     allocated := 0; calls := [] |}.

(** A host whose engine answers [init] with the given outcome, whose first
    container draws one UUID and every later one another, and whose
    certificates are their common names. *)
Definition testHost (init_outcome : Outcome unit) : Host string :=
  {| newContainerUUID := fun n =>
       match n with
       | 0 => "133c00a3-8555-4aa5-9165-9de9a8f8a838"
       | _ => "6eeb8858-eced-4a32-b1cd-2491f1e3718f"
       end;
     CertificateUtil_generate := fun _ commonName =>
       {| km_publicKey := "public key of " +:+ commonName;
          km_privateKey := "private key of " +:+ commonName;
          km_certificate := commonName |};
     Certificate_getIdentifier := fun certificate => "fingerprint of " +:+ certificate;
     Certificate_getName := fun certificate => certificate;
     Certificate_getIssuer := fun _ =>
       "a3e3a2d42f1c55e1485c4d06ba8b5c64f83f697939346687b32bacaae5e38c8f";
     uuid_v4 := fun _ => "f892c30a-7799-4eac-8377-06da53600e5";
     engine_init := fun _ _ _ _ => init_outcome;
     engine_query := fun _ _ _ _ => Resolved "data from engine";
     engine_invoke := fun _ _ _ _ => Resolved "data from engine";
     JSON_stringify := fun data => Resolved (Some data);
     JSON_parse := fun text => Resolved text |}.

(** The host whose engine accepts every [init]. *)
Definition okHost : Host string := testHost (Resolved tt).

(** A security context for [bob1] that carries no chaincode id. *)
Definition bobContext : SecurityContext := securityContextOf bob1 JsNull.

(** The world after one successful [start] of [testnetwork]. *)
Definition startedWorld : World :=
  (start (testHost (Resolved tt)) devFabric1 (securityContextOf bob1 JsNull)
     "testnetwork" "{}" emptyWorld).2.

(** A connection opened for [testnetwork] on the profile [devFabric1]. *)
Definition testnetworkConnection : Connection :=
  {| connectionProfile := "devFabric1";
     businessNetworkIdentifier := Some "testnetwork" |}.

(** The context [login] gives [bob1] on [testnetwork] once it is started. *)
Definition bobSession : SecurityContext :=
  {| sc_connection := testnetworkConnection; getIdentity_sc := bob1;
     getChaincodeID := JsString "133c00a3-8555-4aa5-9165-9de9a8f8a838" |}.

(** [okHost] with a certificate utility whose every certificate has the
    identifier of [bob1]. *)
Definition clashHost : Host string :=
  {| newContainerUUID := newContainerUUID okHost;
     CertificateUtil_generate := CertificateUtil_generate okHost;
     Certificate_getIdentifier := fun _ => identifier bob1;
     Certificate_getName := Certificate_getName okHost;
     Certificate_getIssuer := Certificate_getIssuer okHost;
     uuid_v4 := uuid_v4 okHost;
     engine_init := engine_init okHost;
     engine_query := engine_query okHost;
     engine_invoke := engine_invoke okHost;
     JSON_stringify := JSON_stringify okHost;
     JSON_parse := JSON_parse okHost |}.

(** A container whose UUID is the text [null], and a world in which the
    instance made from it is the only one registered. *)
Definition nullContainer : Container := {| container_ref := 0; getUUID := "null" |}.

Definition nullWorld : World :=
  addChaincode "null" nullContainer {| engine_ref := 1; getContainer := nullContainer |}
    emptyWorld.

(** A world whose collection holds [bob1] under his name and identifier. *)
Definition bobWorld : World :=
  set_identities (fun _ => <[identifier bob1 := bob1]> (<["bob1" := bob1]> ∅)) emptyWorld.

(** [bobWorld] after [testnetwork] has been started on [testnetworkConnection]. *)
Definition startedBobWorld : World :=
  (start okHost testnetworkConnection bobContext "testnetwork" "{}" bobWorld).2.

(** [bobWorld] after the administrator has been bootstrapped. *)
Definition adminWorld : World := (getIdentity okHost "admin" bobWorld).2.

(** * Properties *)

(** Unfold the plumbing of [Async] and the collaborator calls, leaving the
    lookups the method makes. *)
Ltac run_async :=
  unfold await, try_catch, read, update, resolve, throw,
    getIdentities, ensureCollection, collection_get, collection_exists,
    collection_add, generate, v4, stringify;
  simpl.

Lemma registered_getChaincode (chaincodeUUID : JsId) (w : World) :
  registered (getChaincode chaincodeUUID w) = chaincodes w !! toPropertyKey chaincodeUUID.
Proof.
  unfold getChaincode. destruct (chaincodes w !! _); [done|].
  by destruct (is_prototype_member _).
Qed.

Lemma getChaincode_instance (chaincodeUUID : JsId) (cc : Chaincode) (w : World) :
  getChaincode chaincodeUUID w = SlotInstance cc
  ↔ chaincodes w !! toPropertyKey chaincodeUUID = Some cc.
Proof.
  unfold getChaincode. destruct (chaincodes w !! _).
  - split; congruence.
  - by destruct (is_prototype_member _).
Qed.

Lemma getChaincode_unregistered (chaincodeUUID : JsId) (w : World) :
  chaincodes w !! toPropertyKey chaincodeUUID = None →
  getChaincode chaincodeUUID w
  = if is_prototype_member (toPropertyKey chaincodeUUID)
    then SlotPrototypeMember (toPropertyKey chaincodeUUID)
    else SlotUndefined.
Proof. intros Hnone. unfold getChaincode. by rewrite Hnone. Qed.

(** ** Messages *)





(** ** The registry *)

Section RegistryProperties.

Context {Data : Type} (host : Host Data).

(** The container [start] creates in world [w], its engine, the execution
    context it builds and the world in which it calls the engine. *)
Lemma start_run this securityContext network startTransaction w :
  let c := {| container_ref := allocated w;
              getUUID := newContainerUUID host (allocated w) |} in
  let e := {| engine_ref := S (allocated w); getContainer := c |} in
  let context := {| ctx_engine := e; ctx_identity := getIdentity_sc securityContext;
                    ctx_connection := this |} in
  let registered :=
    addChaincode (getUUID c) c e
      (addBusinessNetwork network (connectionProfile this) (getUUID c)
         (tick (log (CallCreateEngine c) (tick (log CallCreateContainer w))))) in
  let w_call := log (CallEngineInit e "init" [startTransaction]) registered in
  start host this securityContext network startTransaction w
  = (engine_init host w_call context "init" [startTransaction], w_call).
Proof. reflexivity. Qed.

Lemma start_businessNetworks this securityContext network startTransaction w :
  businessNetworks (start host this securityContext network startTransaction w).2
  = <[bindingKey network (connectionProfile this) := newContainerUUID host (allocated w)]>
      (businessNetworks w).
Proof. by rewrite start_run. Qed.

Lemma start_chaincodes this securityContext network startTransaction w :
  chaincodes (start host this securityContext network startTransaction w).2
  = addChaincode_entry
      {| container_ref := allocated w; getUUID := newContainerUUID host (allocated w) |}
      (S (allocated w)) (chaincodes w).
Proof. by rewrite start_run. Qed.

(** C1, as amended: a [start] on a pair that is already bound keeps the
    binding table at one entry for the pair (its keys do not change), but
    the entry is overwritten with the id of the container this call has
    just created, and a new instance with that container and a new engine
    is registered under that id; the instance the pair was bound to stays
    in the instance table whenever the two ids differ. *)
Theorem start_on_bound_pair_rebinds this securityContext network startTransaction w id0 cc0 :
  getBusinessNetwork network (connectionProfile this) w = Some id0 →
  chaincodes w !! id0 = Some cc0 →
  let w' := (start host this securityContext network startTransaction w).2 in
  let c := {| container_ref := allocated w;
              getUUID := newContainerUUID host (allocated w) |} in
  let e := {| engine_ref := S (allocated w); getContainer := c |} in
  dom (businessNetworks w') = dom (businessNetworks w)
  ∧ getBusinessNetwork network (connectionProfile this) w' = Some (getUUID c)
  ∧ chaincodes w' !! getUUID c
    = Some {| uuid := getUUID c; container := c; engine := e |}
  ∧ (∀ id, id ≠ getUUID c → chaincodes w' !! id = chaincodes w !! id)
  ∧ (getUUID c ≠ id0 → chaincodes w' !! id0 = Some cc0)
  ∧ (chaincodes w !! getUUID c = None →
     size (chaincodes w') = S (size (chaincodes w))).
Proof.
  intros Hbound Hlive. cbv zeta.
  unfold getBusinessNetwork in *.
  rewrite start_businessNetworks, start_chaincodes.
  unfold addChaincode_entry. simpl.
  split_and!.
  - apply dom_insert_lookup_L. eauto.
  - by rewrite lookup_insert_eq.
  - by rewrite lookup_insert_eq.
  - intros id Hne. by rewrite lookup_insert_ne.
  - intros Hne. by rewrite lookup_insert_ne.
  - intros Hfresh. by apply map_size_insert_None.
Qed.


(** C10: [start] registers before it calls the engine and does not roll
    back.  The world in which [init] is called already holds the binding
    of the pair to the new chaincode id and the new instance; when [init]
    rejects, [start] rejects with the same exception and leaves exactly
    that world, in which any earlier binding of the pair is overwritten. *)
Theorem start_registers_before_init_and_keeps_on_failure
    this securityContext network startTransaction w :
  let c := {| container_ref := allocated w;
              getUUID := newContainerUUID host (allocated w) |} in
  let e := {| engine_ref := S (allocated w); getContainer := c |} in
  let context := {| ctx_engine := e; ctx_identity := getIdentity_sc securityContext;
                    ctx_connection := this |} in
  ∃ w_call,
    getBusinessNetwork network (connectionProfile this) w_call = Some (getUUID c)
    ∧ getChaincode (JsString (getUUID c)) w_call
      = SlotInstance {| uuid := getUUID c; container := c; engine := e |}
    ∧ calls w_call
      = (calls w ++ [CallCreateContainer; CallCreateEngine c;
                     CallEngineInit e "init" [startTransaction]])%list
    ∧ (start host this securityContext network startTransaction w).2 = w_call
    ∧ (start host this securityContext network startTransaction w).1
      = engine_init host w_call context "init" [startTransaction]
    ∧ ∀ err, engine_init host w_call context "init" [startTransaction] = Rejected err →
        start host this securityContext network startTransaction w
        = (Rejected err, w_call).
Proof.
  intros c e context.
  exists (start host this securityContext network startTransaction w).2.
  rewrite start_run. cbn [fst snd]. split_and!.
  - unfold getBusinessNetwork. simpl. by rewrite lookup_insert_eq.
  - apply getChaincode_instance. simpl. by rewrite lookup_insert_eq.
  - simpl. by rewrite <- !app_assoc.
  - reflexivity.
  - reflexivity.
  - intros err Herr. f_equal. exact Herr.
Qed.

Lemma dispatch_unresolved this securityContext functionName args w :
  registered (getChaincode (getChaincodeID securityContext) w) = None →
  queryChainCode host this securityContext functionName args w
  = (Rejected (unresolved_failure (getChaincodeID securityContext)), w)
  ∧ invokeChainCode host this securityContext functionName args w
    = (Rejected (unresolved_failure (getChaincodeID securityContext)), w).
Proof.
  rewrite registered_getChaincode. intros Hnone.
  unfold queryChainCode, invokeChainCode, unresolved_failure. run_async.
  rewrite (getChaincode_unregistered _ _ Hnone).
  by destruct (is_prototype_member _).
Qed.

Lemma queryChainCode_resolved this securityContext functionName args w cc :
  getChaincode (getChaincodeID securityContext) w = SlotInstance cc →
  queryChainCode host this securityContext functionName args w
  = (match engine_query host (log (CallEngineQuery (engine cc) functionName args) w)
             {| ctx_engine := engine cc; ctx_identity := getIdentity_sc securityContext;
                ctx_connection := this |} functionName args with
     | Resolved data =>
         match JSON_stringify host data with
         | Resolved (Some text) => Resolved text
         | Resolved None => Rejected (TypeErrorInvalidArgument "Buffer.from")
         | Rejected e => Rejected e
         end
     | Rejected e => Rejected e
     end,
     log (CallEngineQuery (engine cc) functionName args) w).
Proof.
  intros Hcc. unfold queryChainCode, call_query. run_async. rewrite Hcc. simpl.
  destruct (engine_query host _ _ _ _) as [data|e]; [|done]. simpl.
  by destruct (JSON_stringify host data) as [[text|]|e].
Qed.

Lemma invokeChainCode_resolved this securityContext functionName args w cc :
  getChaincode (getChaincodeID securityContext) w = SlotInstance cc →
  invokeChainCode host this securityContext functionName args w
  = (match engine_invoke host (log (CallEngineInvoke (engine cc) functionName args) w)
             {| ctx_engine := engine cc; ctx_identity := getIdentity_sc securityContext;
                ctx_connection := this |} functionName args with
     | Resolved _ => Resolved tt
     | Rejected e => Rejected e
     end,
     log (CallEngineInvoke (engine cc) functionName args) w).
Proof.
  intros Hcc. unfold invokeChainCode, call_invoke. run_async. rewrite Hcc. simpl.
  by destruct (engine_invoke host _ _ _ _).
Qed.

(** C3, as amended: the chaincode id of the security context is read as a
    property key of the instance table, an absent id as the key [null] or
    [undefined].  When that read finds no registered instance,
    [queryChainCode] and [invokeChainCode] both reject, without calling the
    engine and without touching the world; what they reject with is a
    TypeError of the runtime, for reading [engine] of [undefined], or, when
    the key names a member of [Object.prototype], for reading
    [getContainer] of [undefined] while the execution context is built; it
    is never an error the connector raises.  An absent id is no exception
    to the lookup: with an instance registered under the key it is read
    as, both methods call that instance's engine. *)
Theorem dispatch_unresolved_rejects_with_TypeError
    this securityContext functionName args w :
  (registered (getChaincode (getChaincodeID securityContext) w) = None →
   queryChainCode host this securityContext functionName args w
   = (Rejected (unresolved_failure (getChaincodeID securityContext)), w)
   ∧ invokeChainCode host this securityContext functionName args w
     = (Rejected (unresolved_failure (getChaincodeID securityContext)), w)
   ∧ (unresolved_failure (getChaincodeID securityContext)
      = TypeErrorReadOfUndefined "engine"
      ∨ unresolved_failure (getChaincodeID securityContext)
        = TypeErrorReadOfUndefined "getContainer")
   ∧ (is_prototype_member (toPropertyKey (getChaincodeID securityContext)) = false →
      unresolved_failure (getChaincodeID securityContext)
      = TypeErrorReadOfUndefined "engine")
   ∧ (∀ message, unresolved_failure (getChaincodeID securityContext) ≠ Error message))
  ∧ (∀ cc,
       getChaincodeID securityContext = JsNull
       ∨ getChaincodeID securityContext = JsUndefined →
       chaincodes w !! toPropertyKey (getChaincodeID securityContext) = Some cc →
       calls (queryChainCode host this securityContext functionName args w).2
       = (calls w ++ [CallEngineQuery (engine cc) functionName args])%list
       ∧ calls (invokeChainCode host this securityContext functionName args w).2
         = (calls w ++ [CallEngineInvoke (engine cc) functionName args])%list).
Proof.
  split.
  - intros Hnone.
    destruct (dispatch_unresolved this _ functionName args _ Hnone) as [-> ->].
    unfold unresolved_failure.
    destruct (is_prototype_member _); split_and!; try done; eauto.
  - intros cc _ Hcc%getChaincode_instance.
    rewrite (queryChainCode_resolved this _ functionName args _ _ Hcc).
    by rewrite (invokeChainCode_resolved this _ functionName args _ _ Hcc).
Qed.

End RegistryProperties.

(** C9: [undeploy] always resolves.  When the pair is bound, which the
    code tests by the truthiness of the id it reads, the binding and the
    instance registered under that id are both deleted and every other
    entry of either table is as before; when it is not, the world is left
    as it was. *)
Theorem undeploy_deletes_binding_and_instance this securityContext network w :
  let w' := (undeploy this securityContext network w).2 in
  (undeploy this securityContext network w).1 = Resolved tt
  ∧ (∀ id, getBusinessNetwork network (connectionProfile this) w = Some id →
           truthy id = true →
           getBusinessNetwork network (connectionProfile this) w' = None
           ∧ registered (getChaincode (JsString id) w') = None
           ∧ businessNetworks w'
             = delete (bindingKey network (connectionProfile this)) (businessNetworks w)
           ∧ chaincodes w' = delete id (chaincodes w)
           ∧ identities w' = identities w)
  ∧ (truthy_opt (getBusinessNetwork network (connectionProfile this) w) = false →
     w' = w).
Proof.
  unfold undeploy, update, deleteBusinessNetwork, getBusinessNetwork.
  simpl. split_and!; [done| |].
  - intros id -> ->. rewrite registered_getChaincode. simpl.
    by rewrite !lookup_delete_eq.
  - destruct (businessNetworks w !! _) as [id|]; simpl; [|done].
    by intros ->.
Qed.

(** ** Identities *)

Section IdentityProperties.

Context {Data : Type} (host : Host Data).

Lemma getIdentity_stored identityName record w :
  identities w !! identityName = Some record →
  getIdentity host identityName w = (Resolved record, looked_up identityName w).
Proof.
  intros Hget. unfold getIdentity. run_async. by rewrite Hget.
Qed.

Lemma getIdentity_missing identityName w :
  identityName ≠ "admin" →
  identities w !! identityName = None →
  getIdentity host identityName w
  = (Rejected (CollectionNotFound identityName), looked_up identityName w).
Proof.
  intros Hne Hget. unfold getIdentity. run_async. rewrite Hget.
  by rewrite decide_False.
Qed.

(** For a name other than [admin] the [catch] of [getIdentity] rethrows:
    the method is the lookup and nothing else. *)
Lemma getIdentity_not_admin identityName w :
  identityName ≠ "admin" →
  getIdentity host identityName w
  = await getIdentities (fun _ => collection_get identityName) w.
Proof.
  intros Hne. unfold getIdentity. run_async.
  destruct (identities w !! identityName); [done|]. by rewrite decide_False.
Qed.

(** C8: for a name other than [admin] that has no stored record,
    [getIdentity] rejects with the very exception the collection's [get]
    rejected with, its not-found failure; it makes the lookup and nothing
    else, so no admin identity is generated or stored. *)
Theorem getIdentity_missing_non_admin_rejects identityName w :
  identityName ≠ "admin" →
  identities w !! identityName = None →
  let result := getIdentity host identityName w in
  result.1 = Rejected (CollectionNotFound identityName)
  ∧ result = collection_get identityName (getIdentities w).2
  ∧ identities result.2 = identities w
  ∧ allocated result.2 = allocated w
  ∧ calls result.2
    = (calls w ++ [CallEnsureCollection "identities";
                   CallCollectionGet identityName])%list.
Proof.
  intros Hne Hget. cbv zeta. split_and!.
  - by rewrite getIdentity_missing.
  - by rewrite getIdentity_not_admin.
  - by rewrite getIdentity_missing.
  - by rewrite getIdentity_missing.
  - rewrite getIdentity_missing by done. simpl. by rewrite <- app_assoc.
Qed.

(** C4: with a record stored under the name, [testIdentity] resolves with
    that record without looking at the secret when the record is imported
    or the name is [admin]; otherwise it resolves with the record exactly
    when the secret given is the stored one, and rejects with the
    secret-mismatch error when it is not. *)
Theorem testIdentity_compares_secret identityName identitySecret record w :
  identities w !! identityName = Some record →
  let outcome := (testIdentity host identityName identitySecret w).1 in
  (imported record = false → identityName ≠ "admin" →
   (outcome = Resolved record ↔ identitySecret = secret record)
   ∧ (identitySecret ≠ secret record →
      outcome = Rejected (SecretMismatch identitySecret identityName (secret record))))
  ∧ (imported record = true ∨ identityName = "admin" → outcome = Resolved record).
Proof.
  intros Hget. cbv zeta. unfold testIdentity, await.
  rewrite (getIdentity_stored _ _ _ Hget).
  split.
  - intros Himp Hne. rewrite Himp, decide_False by done.
    destruct (decide (secret record = identitySecret)) as [Heq|Hneq].
    + rewrite bool_decide_eq_true_2 by done. simpl. split; [done|]. congruence.
    + rewrite bool_decide_eq_false_2 by done. simpl. split; [|done].
      split; [discriminate|congruence].
  - intros [Himp|Hadmin].
    + by rewrite Himp.
    + destruct (imported record); [done|]. by rewrite decide_True.
Qed.

(** C7: a caller whose [options.issuer] is not true gets the
    permission error, whose message names the caller, and the world is
    exactly as it was: nothing stored, no collection touched, no
    certificate generated. *)
Theorem createIdentity_requires_issuer securityContext identityName opts w :
  options_issuer (options (getIdentity_sc securityContext)) ≠ Some true →
  createIdentity host securityContext identityName opts w
  = (Rejected (NotAnIssuer (name (getIdentity_sc securityContext)) identityName), w)
  ∧ ∃ message,
      NotAnIssuer (name (getIdentity_sc securityContext)) identityName = Error message
      ∧ carries message (name (getIdentity_sc securityContext)).
Proof.
  intros Hno. split.
  - unfold createIdentity.
    destruct (options_issuer _) as [[|]|]; simpl; done.
  - eexists. split; [reflexivity|].
    by exists "The identity ",
      (" does not have permission to create a new identity " +:+ identityName).
Qed.

Lemma after_admin_lookups_stored admin n w :
  identities w !! "admin" = Some admin →
  identities (after_admin_lookups host n w) = identities w
  ∧ allocated (after_admin_lookups host n w) = allocated w.
Proof.
  revert w. induction n as [|n IH]; intros w Hget; simpl; [done|].
  rewrite (getIdentity_stored _ _ _ Hget). simpl.
  destruct (IH (looked_up "admin" w)) as [-> ->]; done.
Qed.

(** C5: when no record is stored under [admin] (and the identifier of the
    generated certificate is a key not yet in use), the first
    [getIdentity("admin")] resolves with an identity whose secret is
    [adminpw], which is not imported and whose options are
    [{ issuer: true }], and stores that one record under [admin] and under
    its identifier, adding nothing else; each later call, however many
    came before it, resolves with the same identity, looks the name up and
    does nothing more, so the collection stays as the first call left it. *)
Theorem getIdentity_admin_idempotent w :
  let derived :=
    Certificate_getIdentifier host
      (km_certificate (CertificateUtil_generate host (allocated w) "admin")) in
  identities w !! "admin" = None →
  derived ≠ "admin" →
  identities w !! derived = None →
  let first := getIdentity host "admin" w in
  ∃ admin,
    first.1 = Resolved admin
    ∧ identifier admin = derived
    ∧ secret admin = "adminpw"
    ∧ imported admin = false
    ∧ options admin = {| options_issuer := Some true; options_affiliation := None |}
    ∧ identities first.2 = <[derived := admin]> (<["admin" := admin]> (identities w))
    ∧ identities first.2 !! "admin" = Some admin
    ∧ identities first.2 !! derived = Some admin
    ∧ ∀ n,
        let before := after_admin_lookups host n first.2 in
        let later := getIdentity host "admin" before in
        later.1 = Resolved admin
        ∧ identities later.2 = identities first.2
        ∧ allocated later.2 = allocated first.2
        ∧ calls later.2
          = (calls before ++ [CallEnsureCollection "identities";
                              CallCollectionGet "admin"])%list.
Proof.
  intros derived Hadmin Hne Hfresh first.
  assert (Hfirst : ∃ admin w1,
    first = (Resolved admin, w1) ∧ identifier admin = derived
    ∧ secret admin = "adminpw" ∧ imported admin = false
    ∧ options admin = {| options_issuer := Some true; options_affiliation := None |}
    ∧ identities w1 = <[derived := admin]> (<["admin" := admin]> (identities w))).
  { subst first. unfold getIdentity. run_async. rewrite Hadmin. simpl.
    unfold _createAdminIdentity. run_async. rewrite Hadmin. simpl.
    fold derived. rewrite lookup_insert_ne by done. rewrite Hfresh.
    eexists _, _. split_and!; reflexivity. }
  destruct Hfirst as (admin & w1 & -> & Hid & Hsecret & Himp & Hopts & Hstore).
  exists admin. simpl.
  assert (Hlook : identities w1 !! "admin" = Some admin).
  { rewrite Hstore, lookup_insert_ne by done. by rewrite lookup_insert_eq. }
  split_and!; try done.
  - rewrite Hstore. by rewrite lookup_insert_eq.
  - intros n.
    destruct (after_admin_lookups_stored admin n w1 Hlook) as [Hids Halloc].
    assert (Hlater : identities (after_admin_lookups host n w1) !! "admin" = Some admin)
      by (by rewrite Hids).
    rewrite (getIdentity_stored _ _ _ Hlater). simpl.
    split_and!; try done. by rewrite <- app_assoc.
Qed.

Lemma createIdentity_new securityContext identityName opts w :
  truthy_flag (options_issuer (options (getIdentity_sc securityContext))) = true →
  identities w !! identityName = None →
  let record := issued_record host identityName opts w in
  let result := createIdentity host securityContext identityName opts w in
  (identifier record ≠ identityName → identities w !! identifier record = None →
   result.1 = Resolved {| userID := name record; userSecret := secret record |}
   ∧ identities result.2
     = <[identifier record := record]> (<[identityName := record]> (identities w)))
  ∧ (identifier record = identityName ∨ is_Some (identities w !! identifier record) →
     result.1 = Rejected (CollectionDuplicate (identifier record))
     ∧ identities result.2 = <[identityName := record]> (identities w)).
Proof.
  intros Hissuer Hnew record result. subst result.
  unfold createIdentity. rewrite Hissuer. run_async. rewrite !Hnew.
  rewrite bool_decide_eq_false_2 by (by intros [? ?]). simpl.
  rewrite !Hnew. simpl.
  fold (issued_record host identityName opts w). fold record.
  change (Certificate_getIdentifier host
            (km_certificate (CertificateUtil_generate host (allocated w) identityName)))
    with (identifier record).
  change (Certificate_getName host
            (km_certificate (CertificateUtil_generate host (allocated w) identityName)))
    with (name record).
  change (String.substring 0 8 (uuid_v4 host (S (allocated w)))) with (secret record).
  split.
  - intros Hne Hfresh. rewrite lookup_insert_ne by done. by rewrite Hfresh.
  - intros [Heq|[other Hother]].
    + rewrite Heq, lookup_insert_eq. done.
    + destruct (decide (identifier record = identityName)) as [Heq|Hne].
      * rewrite Heq, lookup_insert_eq. done.
      * rewrite lookup_insert_ne by done. by rewrite Hother.
Qed.

Lemma createIdentity_existing securityContext identityName opts existing w :
  truthy_flag (options_issuer (options (getIdentity_sc securityContext))) = true →
  identities w !! identityName = Some existing →
  createIdentity host securityContext identityName opts w
  = (Resolved {| userID := name existing; userSecret := secret existing |},
     log (CallCollectionGet identityName)
       (log (CallCollectionExists identityName)
          (log (CallEnsureCollection "identities") w))).
Proof.
  intros Hissuer Hget. unfold createIdentity. rewrite Hissuer. run_async.
  rewrite Hget. rewrite bool_decide_eq_true_2 by eauto. simpl. by rewrite Hget.
Qed.

Lemma createIdentity_not_issuer securityContext identityName opts w :
  truthy_flag (options_issuer (options (getIdentity_sc securityContext))) = false →
  createIdentity host securityContext identityName opts w
  = (Rejected (NotAnIssuer (name (getIdentity_sc securityContext)) identityName), w).
Proof. intros Hno. unfold createIdentity. by rewrite Hno. Qed.

Lemma createIdentity_new_resolved securityContext identityName opts credentials w w1 :
  identities w !! identityName = None →
  createIdentity host securityContext identityName opts w = (Resolved credentials, w1) →
  let record := issued_record host identityName opts w in
  identifier record ≠ identityName
  ∧ identities w !! identifier record = None
  ∧ credentials = {| userID := name record; userSecret := secret record |}
  ∧ identities w1
    = <[identifier record := record]> (<[identityName := record]> (identities w)).
Proof.
  intros Hnew Hrun record.
  destruct (truthy_flag (options_issuer (options (getIdentity_sc securityContext))))
    eqn:Hissuer; [|by rewrite createIdentity_not_issuer in Hrun].
  destruct (createIdentity_new securityContext identityName opts w Hissuer Hnew)
    as [Hok Hdup]. fold record in Hok, Hdup.
  rewrite Hrun in Hok, Hdup. cbn [fst snd] in Hok, Hdup.
  destruct (decide (identifier record = identityName)) as [Heq|Hne].
  { by destruct (Hdup (or_introl Heq)). }
  destruct (identities w !! identifier record) as [other|] eqn:Hother.
  { by destruct (Hdup (or_intror (mk_is_Some _ _ eq_refl))). }
  destruct (Hok Hne eq_refl) as [[= ->] ->]. done.
Qed.

(** C6: for a caller who is an issuer, [createIdentity] on a name that is
    already stored adds nothing, generates nothing and resolves with the
    stored record's name and secret.  So two calls in a row for a new name
    (the identifier of the certificate generated for it being a free key
    other than the name) go like this: the first resolves and stores one
    record, under the name and under its identifier, and nothing else; the
    second resolves with the very credentials of the first and leaves the
    collection alone.  And a first call for a new name resolves in no
    other way. *)
Theorem createIdentity_idempotent_per_name securityContext identityName opts w :
  truthy_flag (options_issuer (options (getIdentity_sc securityContext))) = true →
  (∀ existing, identities w !! identityName = Some existing →
     let result := createIdentity host securityContext identityName opts w in
     result.1 = Resolved {| userID := name existing; userSecret := secret existing |}
     ∧ identities result.2 = identities w
     ∧ allocated result.2 = allocated w
     ∧ calls result.2
       = (calls w ++ [CallEnsureCollection "identities";
                      CallCollectionExists identityName;
                      CallCollectionGet identityName])%list)
  ∧ (∀ securityContext2 opts2,
     identities w !! identityName = None →
     let record := issued_record host identityName opts w in
     identifier record ≠ identityName →
     identities w !! identifier record = None →
     truthy_flag (options_issuer (options (getIdentity_sc securityContext2))) = true →
     let first := createIdentity host securityContext identityName opts w in
     let second := createIdentity host securityContext2 identityName opts2 first.2 in
     first.1 = Resolved {| userID := name record; userSecret := secret record |}
     ∧ identities first.2
       = <[identifier record := record]> (<[identityName := record]> (identities w))
     ∧ size (identities first.2) = S (S (size (identities w)))
     ∧ second.1 = first.1
     ∧ identities second.2 = identities first.2)
  ∧ (∀ credentials securityContext2 opts2,
     identities w !! identityName = None →
     let first := createIdentity host securityContext identityName opts w in
     first.1 = Resolved credentials →
     truthy_flag (options_issuer (options (getIdentity_sc securityContext2))) = true →
     let second := createIdentity host securityContext2 identityName opts2 first.2 in
     second.1 = Resolved credentials
     ∧ identities second.2 = identities first.2
     ∧ ∃ record,
         identities first.2
         = <[identifier record := record]> (<[identityName := record]> (identities w))
         ∧ identifier record ≠ identityName
         ∧ identities w !! identifier record = None
         ∧ credentials = {| userID := name record; userSecret := secret record |}
         ∧ size (identities second.2) = S (S (size (identities w)))).
Proof.
  intros Hissuer.
  assert (Htwice : ∀ sc2 opts2,
    identities w !! identityName = None →
    let record := issued_record host identityName opts w in
    identifier record ≠ identityName →
    identities w !! identifier record = None →
    truthy_flag (options_issuer (options (getIdentity_sc sc2))) = true →
    let first := createIdentity host securityContext identityName opts w in
    let second := createIdentity host sc2 identityName opts2 first.2 in
    first.1 = Resolved {| userID := name record; userSecret := secret record |}
    ∧ identities first.2
      = <[identifier record := record]> (<[identityName := record]> (identities w))
    ∧ size (identities first.2) = S (S (size (identities w)))
    ∧ second.1 = first.1
    ∧ identities second.2 = identities first.2).
  { intros sc2 opts2 Hnew record Hne Hfresh Hissuer2 first second.
    destruct (createIdentity_new securityContext identityName opts w Hissuer Hnew)
      as [Hok _].
    destruct (Hok Hne Hfresh) as [Hout Hstore]. fold record first in Hout, Hstore.
    assert (Hget : identities first.2 !! identityName = Some record).
    { rewrite Hstore, lookup_insert_ne by done. apply lookup_insert_eq. }
    subst second. rewrite (createIdentity_existing _ _ _ _ _ Hissuer2 Hget).
    rewrite Hout, Hstore. split_and!; try done.
    rewrite map_size_insert_None by (by rewrite lookup_insert_ne).
    by rewrite map_size_insert_None. }
  split_and!.
  - intros existing Hget. cbv zeta.
    rewrite (createIdentity_existing _ _ _ _ _ Hissuer Hget). simpl.
    split_and!; try done. by rewrite <- !app_assoc.
  - exact Htwice.
  - intros credentials sc2 opts2 Hnew first Hfirst Hissuer2 second.
    assert (Hrun : createIdentity host securityContext identityName opts w
                   = (Resolved credentials, first.2)).
    { subst first. destruct (createIdentity host securityContext identityName opts w).
      simpl in *. congruence. }
    destruct (createIdentity_new_resolved _ _ _ _ _ _ Hnew Hrun)
      as (Hne & Hfresh & Hcred & Hstore).
    pose proof (Htwice sc2 opts2 Hnew Hne Hfresh Hissuer2) as Hboth.
    cbv zeta in Hboth. destruct Hboth as (_ & _ & Hsize & Hsecond & Hsame).
    subst second first. split_and!; [congruence|done|].
    eexists. split_and!; [exact Hstore|exact Hne|exact Hfresh|exact Hcred|].
    by rewrite Hsame.
Qed.

End IdentityProperties.

(** ** The properties on the fixtures *)

Lemma start_on_bound_pair_rebinds_witness :
  getBusinessNetwork "testnetwork" "devFabric1" startedWorld
  = Some "133c00a3-8555-4aa5-9165-9de9a8f8a838"
  ∧ getBusinessNetwork "testnetwork" "devFabric1"
      (start okHost devFabric1 bobContext "testnetwork" "{}" startedWorld).2
    = Some "6eeb8858-eced-4a32-b1cd-2491f1e3718f".
Proof.
  split; [reflexivity|].
  edestruct (start_on_bound_pair_rebinds okHost devFabric1 bobContext
               "testnetwork" "{}" startedWorld) as (_ & Hbinding & _).
  - reflexivity.
  - reflexivity.
  - exact Hbinding.
Defined.

(** C1 fails as stated: after a first [start] of [testnetwork] the pair is
    bound to a live instance; a second [start] leaves the pair bound to
    another id, with a second instance in the table beside the first. *)
Lemma start_on_bound_pair_counterexample :
  let original := "133c00a3-8555-4aa5-9165-9de9a8f8a838" in
  let w' := (start okHost devFabric1 bobContext "testnetwork" "{}" startedWorld).2 in
  getBusinessNetwork "testnetwork" "devFabric1" startedWorld = Some original
  ∧ is_Some (registered (getChaincode (JsString original) startedWorld))
  ∧ size (chaincodes startedWorld) = 1
  ∧ getBusinessNetwork "testnetwork" "devFabric1" w'
    = Some "6eeb8858-eced-4a32-b1cd-2491f1e3718f"
  ∧ size (chaincodes w') = 2
  ∧ ¬ (getBusinessNetwork "testnetwork" "devFabric1" w' = Some original
       ∧ chaincodes w' = chaincodes startedWorld).
Proof.
  cbv zeta. split_and!.
  - reflexivity.
  - eexists. reflexivity.
  - reflexivity.
  - reflexivity.
  - reflexivity.
  - intros [Hsame _]. vm_compute in Hsame. discriminate Hsame.
Qed.



Lemma start_registers_before_init_witness :
  start (testHost (Rejected (EngineFailure "some error"))) devFabric1 bobContext
    "testnetwork" "{}" emptyWorld
  = (Rejected (EngineFailure "some error"),
     (start (testHost (Rejected (EngineFailure "some error"))) devFabric1 bobContext
        "testnetwork" "{}" emptyWorld).2)
  ∧ getBusinessNetwork "testnetwork" "devFabric1"
      (start (testHost (Rejected (EngineFailure "some error"))) devFabric1 bobContext
         "testnetwork" "{}" emptyWorld).2
    = Some "133c00a3-8555-4aa5-9165-9de9a8f8a838".
Proof.
  destruct (start_registers_before_init_and_keeps_on_failure
              (testHost (Rejected (EngineFailure "some error"))) devFabric1 bobContext
              "testnetwork" "{}" emptyWorld)
    as (w_call & Hbinding & _ & _ & Hworld & _ & Hrejected).
  rewrite Hworld. split.
  - exact (Hrejected _ eq_refl).
  - exact Hbinding.
Defined.

Lemma dispatch_unresolved_witness :
  (queryChainCode okHost devFabric1 bobContext "ping" [] startedWorld).1
  = Rejected (TypeErrorReadOfUndefined "engine")
  ∧ (invokeChainCode okHost devFabric1 bobContext "testFunction" ["arg1"; "arg2"]
       startedWorld).1
    = Rejected (TypeErrorReadOfUndefined "engine")
  ∧ (queryChainCode okHost devFabric1 (securityContextOf bob1 (JsString "constructor"))
       "ping" [] startedWorld).1
    = Rejected (TypeErrorReadOfUndefined "getContainer")
  ∧ calls (queryChainCode okHost devFabric1 bobContext "ping" [] nullWorld).2
    = [CallEngineQuery {| engine_ref := 1; getContainer := nullContainer |} "ping" []].
Proof.
  split_and!; [| | |
    exact (proj1 (proj2 (dispatch_unresolved_rejects_with_TypeError okHost devFabric1
                           bobContext "ping" [] nullWorld) _ (or_introl eq_refl) eq_refl))].
  - destruct (proj1 (dispatch_unresolved_rejects_with_TypeError okHost devFabric1
                       bobContext "ping" [] startedWorld) eq_refl) as (-> & _).
    reflexivity.
  - destruct (proj1 (dispatch_unresolved_rejects_with_TypeError okHost devFabric1
                       bobContext "testFunction" ["arg1"; "arg2"] startedWorld) eq_refl)
      as (_ & -> & _).
    reflexivity.
  - destruct (proj1 (dispatch_unresolved_rejects_with_TypeError okHost devFabric1
                       (securityContextOf bob1 (JsString "constructor")) "ping" []
                       startedWorld) eq_refl) as (-> & _).
    reflexivity.
Defined.

(** C3 fails as stated: with a network started and a security context
    that carries no chaincode id, both dispatch methods reject with the
    runtime's TypeError, not with an error of the connector's. *)
Lemma dispatch_unbound_counterexample :
  let query :=
    (queryChainCode okHost devFabric1 bobContext "testFunction" ["arg1"; "arg2"]
       startedWorld).1 in
  let invoke :=
    (invokeChainCode okHost devFabric1 bobContext "testFunction" ["arg1"; "arg2"]
       startedWorld).1 in
  getChaincodeID bobContext = JsNull
  ∧ getChaincode (getChaincodeID bobContext) startedWorld = SlotUndefined
  ∧ query = Rejected (TypeErrorReadOfUndefined "engine")
  ∧ invoke = Rejected (TypeErrorReadOfUndefined "engine")
  ∧ ¬ (∃ e, query = Rejected e ∧ spec_ChaincodeNotFound e)
  ∧ ¬ (∃ e, invoke = Rejected e ∧ spec_ChaincodeNotFound e).
Proof.
  cbv zeta. split_and!; try reflexivity.
  - intros (e & Hout & message & ->). vm_compute in Hout. discriminate Hout.
  - intros (e & Hout & message & ->). vm_compute in Hout. discriminate Hout.
Qed.

Lemma undeploy_witness :
  let w' := (undeploy devFabric1 bobContext "testnetwork" startedWorld).2 in
  getBusinessNetwork "testnetwork" "devFabric1" w' = None
  ∧ registered (getChaincode (JsString "133c00a3-8555-4aa5-9165-9de9a8f8a838") w') = None
  ∧ (undeploy devFabric1 bobContext "org.acme.Business" startedWorld).2 = startedWorld.
Proof.
  destruct (undeploy_deletes_binding_and_instance devFabric1 bobContext
              "testnetwork" startedWorld) as (_ & Hbound & _).
  destruct (Hbound "133c00a3-8555-4aa5-9165-9de9a8f8a838" eq_refl eq_refl)
    as (Hbinding & Hinstance & _).
  destruct (undeploy_deletes_binding_and_instance devFabric1 bobContext
              "org.acme.Business" startedWorld) as (_ & _ & Hunbound).
  cbv zeta. split_and!.
  - exact Hbinding.
  - exact Hinstance.
  - exact (Hunbound eq_refl).
Defined.

Lemma testIdentity_compares_secret_witness :
  (testIdentity okHost "bob1" "suchsecret" bobWorld).1 = Resolved bob1
  ∧ (testIdentity okHost "bob1" "blahblah" bobWorld).1
    = Rejected (SecretMismatch "blahblah" "bob1" "suchsecret").
Proof.
  split.
  - destruct (testIdentity_compares_secret okHost "bob1" "suchsecret" bob1 bobWorld
                eq_refl) as [Hchecked _].
    destruct (Hchecked eq_refl) as [Hiff _]; [discriminate|].
    apply Hiff. reflexivity.
  - destruct (testIdentity_compares_secret okHost "bob1" "blahblah" bob1 bobWorld
                eq_refl) as [Hchecked _].
    destruct (Hchecked eq_refl) as [_ Hmismatch]; [discriminate|].
    apply Hmismatch. discriminate.
Defined.

Lemma getIdentity_admin_idempotent_witness :
  identities bobWorld !! "admin" = None
  ∧ ∃ admin,
      (getIdentity okHost "admin" bobWorld).1 = Resolved admin
      ∧ secret admin = "adminpw"
      ∧ (getIdentity okHost "admin" (getIdentity okHost "admin" bobWorld).2).1
        = Resolved admin.
Proof.
  split; [reflexivity|].
  edestruct (getIdentity_admin_idempotent okHost bobWorld)
    as (admin & Hfirst & _ & Hsecret & _ & _ & _ & _ & _ & Hlater).
  - reflexivity.
  - discriminate.
  - reflexivity.
  - exists admin. split_and!.
    + exact Hfirst.
    + exact Hsecret.
    + exact (proj1 (Hlater 0)).
Defined.

Lemma createIdentity_idempotent_per_name_witness :
  (createIdentity okHost bobContext "bob1" None bobWorld).1
  = Resolved {| userID := "bob1"; userSecret := "suchsecret" |}
  ∧ (createIdentity okHost bobContext "doge" None bobWorld).1
    = Resolved {| userID := "doge"; userSecret := "f892c30a" |}
  ∧ (createIdentity okHost bobContext "doge" None
       (createIdentity okHost bobContext "doge" None bobWorld).2).1
    = Resolved {| userID := "doge"; userSecret := "f892c30a" |}.
Proof.
  split_and!.
  - destruct (createIdentity_idempotent_per_name okHost bobContext "bob1" None bobWorld
                eq_refl) as (Hexisting & _).
    exact (proj1 (Hexisting bob1 eq_refl)).
  - destruct (createIdentity_idempotent_per_name okHost bobContext "doge" None bobWorld
                eq_refl) as (_ & Htwice & _).
    edestruct (Htwice bobContext None) as (Hfirst & _).
    + reflexivity.
    + discriminate.
    + reflexivity.
    + reflexivity.
    + exact Hfirst.
  - destruct (createIdentity_idempotent_per_name okHost bobContext "doge" None bobWorld
                eq_refl) as (_ & Htwice & _).
    edestruct (Htwice bobContext None) as (Hfirst & _ & _ & Hsecond & _).
    + reflexivity.
    + discriminate.
    + reflexivity.
    + reflexivity.
    + rewrite Hsecond. exact Hfirst.
Defined.

Lemma createIdentity_requires_issuer_witness :
  createIdentity okHost (securityContextOf bob1_no_issuer JsNull) "doge" None bobWorld
  = (Rejected (NotAnIssuer "bob1" "doge"), bobWorld).
Proof.
  refine (proj1 (createIdentity_requires_issuer okHost
                   (securityContextOf bob1_no_issuer JsNull) "doge" None bobWorld _)).
  discriminate.
Defined.

Lemma getIdentity_missing_non_admin_witness :
  (getIdentity okHost "bob1" emptyWorld).1 = Rejected (CollectionNotFound "bob1").
Proof.
  refine (proj1 (getIdentity_missing_non_admin_rejects okHost "bob1" emptyWorld _ eq_refl)).
  discriminate.
Defined.

(** * Further properties of the registry *)

Lemma delete_each_empty {V : Type} (table : gmap string V) : delete_each table = ∅.
Proof.
  apply map_eq. intros key. rewrite lookup_empty. unfold delete_each.
  destruct (table !! key) as [v|] eqn:Hkey.
  - apply lookup_foldr_delete, elem_of_elements, elem_of_dom. eauto.
  - rewrite lookup_foldr_delete_not_elem_of; [done|].
    rewrite elem_of_elements, elem_of_dom, Hkey. by intros [? ?].
Qed.

(** X1: [reset] empties both tables, so that afterwards no pair is bound
    and no chaincode id resolves to an instance: a read of the instance
    table gives [undefined], or, for an id that names one, the member of
    [Object.prototype].  It leaves the identities, the allocation counter
    and the call log alone. *)
Theorem reset_clears_registry w :
  businessNetworks (reset w) = ∅
  ∧ chaincodes (reset w) = ∅
  ∧ (∀ network profile, getBusinessNetwork network profile (reset w) = None)
  ∧ (∀ id, registered (getChaincode id (reset w)) = None)
  ∧ (∀ id, getChaincode id (reset w)
           = if is_prototype_member (toPropertyKey id)
             then SlotPrototypeMember (toPropertyKey id)
             else SlotUndefined)
  ∧ identities (reset w) = identities w
  ∧ allocated (reset w) = allocated w
  ∧ calls (reset w) = calls w.
Proof.
  assert (Hempty : chaincodes (reset w) = ∅).
  { unfold reset. simpl. apply delete_each_empty. }
  split_and!; try done.
  - unfold reset. simpl. apply delete_each_empty.
  - intros network profile. unfold reset, getBusinessNetwork. simpl.
    by rewrite delete_each_empty.
  - intros id. by rewrite registered_getChaincode, Hempty.
  - intros id. apply getChaincode_unregistered. by rewrite Hempty.
Qed.

Lemma append_cons (a : Ascii.ascii) (s t : string) :
  String a s +:+ t = String a (s +:+ t).
Proof. reflexivity. Qed.

Lemma append_nil_l (s : string) : "" +:+ s = s.
Proof. reflexivity. Qed.

Lemma string_app_assoc (a b c : string) : (a +:+ b) +:+ c = a +:+ (b +:+ c).
Proof.
  induction a as [|x a IH]; [done|]. rewrite !append_cons. by rewrite IH.
Qed.

(** X2: the binding key does not separate the network from the profile
    when the network name has an [@] in it: the pair of network [n@x] and
    profile [p] and the pair of network [n] and profile [x@p] are one
    entry, so binding either binds the other. *)
Theorem bindingKey_collision n x p id w :
  bindingKey (n +:+ "@" +:+ x) p = bindingKey n (x +:+ "@" +:+ p)
  ∧ getBusinessNetwork n (x +:+ "@" +:+ p)
      (addBusinessNetwork (n +:+ "@" +:+ x) p id w) = Some id.
Proof.
  assert (Hkey : bindingKey (n +:+ "@" +:+ x) p = bindingKey n (x +:+ "@" +:+ p)).
  { unfold bindingKey. rewrite !string_app_assoc. done. }
  split; [done|].
  unfold getBusinessNetwork, addBusinessNetwork. simpl.
  rewrite Hkey. apply lookup_insert_eq.
Qed.

Lemma includes_at_cons a s :
  includes "@" (String a s) = false → a ≠ "@"%char ∧ includes "@" s = false.
Proof.
  simpl. intros [Hhead Htail]%orb_false_elim. split; [|done].
  intros ->. by rewrite bool_decide_eq_true_2 in Hhead.
Qed.

(** X3: for network names without an [@], the binding key separates the
    pairs: two pairs have the same key only when they are the same pair. *)
Theorem bindingKey_injective n1 p1 n2 p2 :
  includes "@" n1 = false →
  includes "@" n2 = false →
  bindingKey n1 p1 = bindingKey n2 p2 →
  n1 = n2 ∧ p1 = p2.
Proof.
  unfold bindingKey. revert n2.
  induction n1 as [|a n1 IH]; intros [|b n2] H1 H2 Heq;
    rewrite ?append_cons, ?append_nil_l in Heq.
  - by injection Heq.
  - apply includes_at_cons in H2 as [Hb _]. by injection Heq as <- _.
  - apply includes_at_cons in H1 as [Ha _]. by injection Heq as -> _.
  - apply includes_at_cons in H1 as [_ H1]. apply includes_at_cons in H2 as [_ H2].
    injection Heq as -> Heq. destruct (IH n2 H1 H2 Heq) as [-> ->]. done.
Qed.

(** X4: deleting a pair twice is deleting it once. *)
Theorem deleteBusinessNetwork_idempotent network profile w :
  deleteBusinessNetwork network profile (deleteBusinessNetwork network profile w)
  = deleteBusinessNetwork network profile w.
Proof.
  unfold deleteBusinessNetwork.
  destruct (businessNetworks w !! bindingKey network profile) as [id|] eqn:Hkey.
  - destruct (truthy id) eqn:Hid; simpl.
    + by rewrite lookup_delete_eq.
    + by rewrite Hkey, Hid.
  - by rewrite Hkey.
Qed.

(** X5: [undeploy] does nothing exactly when the pair is not bound in the
    sense of [login], that is, when the id read for the pair is falsy. *)
Theorem undeploy_noop_iff_unbound this securityContext network w :
  (undeploy this securityContext network w).2 = w
  ↔ truthy_opt (getBusinessNetwork network (connectionProfile this) w) = false.
Proof.
  unfold undeploy, update, deleteBusinessNetwork, getBusinessNetwork. simpl.
  destruct (businessNetworks w !! _) as [id|] eqn:Hkey; simpl; [|done].
  destruct (truthy id); [|done]. split; [|done].
  intros Hsame. apply (f_equal businessNetworks) in Hsame. simpl in Hsame.
  apply (f_equal (λ m, m !! bindingKey network (connectionProfile this))) in Hsame.
  rewrite lookup_delete_eq, Hkey in Hsame. done.
Qed.

(** ** Stepping the world along a relation *)

Section Steps.

Context (R : World → World → Prop) `{!PreOrder R}.

Lemma steps_resolve {A : Type} (a : A) : steps R (resolve a).
Proof. intros w. simpl. reflexivity. Qed.

Lemma steps_throw {A : Type} (e : Exn) : steps R (throw (A:=A) e).
Proof. intros w. simpl. reflexivity. Qed.

Lemma steps_read {A : Type} (f : World → A) : steps R (read f).
Proof. intros w. simpl. reflexivity. Qed.

Lemma steps_await {A B : Type} (m : Async A) (k : A → Async B) :
  steps R m → (∀ a, steps R (k a)) → steps R (await m k).
Proof.
  intros Hm Hk w. unfold await. specialize (Hm w).
  destruct (m w) as [[a|e] w']; simpl in *; [|done].
  etrans; [exact Hm|apply Hk].
Qed.

Lemma steps_try_catch {A : Type} (m : Async A) (h : Exn → Async A) :
  steps R m → (∀ e, steps R (h e)) → steps R (try_catch m h).
Proof.
  intros Hm Hh w. unfold try_catch. specialize (Hm w).
  destruct (m w) as [[a|e] w']; simpl in *; [done|].
  etrans; [exact Hm|apply Hh].
Qed.

End Steps.

#[global] Instance only_adds_identities_preorder : PreOrder only_adds_identities.
Proof.
  split.
  - intros w. by split_and!.
  - intros w1 w2 w3 (Hi1 & Hb1 & Hc1 & Hl1) (Hi2 & Hb2 & Hc2 & Hl2).
    split_and!; [by etrans|congruence|congruence|by etrans].
Qed.

#[global] Instance keeps_identities_preorder : PreOrder keeps_identities.
Proof.
  split.
  - intros w. by split.
  - intros w1 w2 w3 [Hi1 Hl1] [Hi2 Hl2]. split; [congruence|by etrans].
Qed.

Lemma only_adds_log c w : only_adds_identities w (log c w).
Proof. split_and!; try done. simpl. by apply prefix_app_r. Qed.

Lemma only_adds_tick w : only_adds_identities w (tick w).
Proof. by split_and!. Qed.

Lemma keeps_log c w : keeps_identities w (log c w).
Proof. split; [done|]. simpl. by apply prefix_app_r. Qed.

Section Frames.

Context {Data : Type} (host : Host Data).

Lemma steps_ensureCollection id : steps only_adds_identities (ensureCollection id).
Proof. intros w. apply only_adds_log. Qed.

Lemma steps_collection_get id : steps only_adds_identities (collection_get id).
Proof.
  intros w. unfold collection_get.
  destruct (identities w !! id); apply only_adds_log.
Qed.

Lemma steps_collection_exists id : steps only_adds_identities (collection_exists id).
Proof. intros w. apply only_adds_log. Qed.

Lemma steps_collection_add id record :
  steps only_adds_identities (collection_add id record).
Proof.
  intros w. unfold collection_add.
  destruct (identities w !! id) eqn:Hid; simpl; [apply only_adds_log|].
  split_and!; simpl; try done.
  - by apply insert_subseteq.
  - by apply prefix_app_r.
Qed.

Lemma steps_generate commonName : steps only_adds_identities (generate host commonName).
Proof. intros w. simpl. etrans; [apply only_adds_log|apply only_adds_tick]. Qed.

Lemma steps_v4 : steps only_adds_identities (v4 host).
Proof. intros w. simpl. etrans; [apply only_adds_log|apply only_adds_tick]. Qed.

Lemma steps__createAdminIdentity : steps only_adds_identities (_createAdminIdentity host).
Proof.
  unfold _createAdminIdentity.
  apply steps_await; [tc_solve|apply steps_generate|intros keys].
  apply steps_await; [tc_solve|apply steps_ensureCollection|intros _].
  apply steps_await; [tc_solve|apply steps_collection_add|intros _].
  apply steps_await; [tc_solve|apply steps_collection_add|intros _].
  apply steps_resolve; tc_solve.
Qed.

Lemma steps_getIdentity identityName :
  steps only_adds_identities (getIdentity host identityName).
Proof.
  unfold getIdentity.
  apply steps_await; [tc_solve|apply steps_ensureCollection|intros _].
  apply steps_try_catch; [tc_solve|apply steps_collection_get|intros e].
  case_decide; [apply steps__createAdminIdentity|apply steps_throw; tc_solve].
Qed.

Lemma steps_testIdentity identityName identitySecret :
  steps only_adds_identities (testIdentity host identityName identitySecret).
Proof.
  unfold testIdentity.
  apply steps_await; [tc_solve|apply steps_getIdentity|intros identity].
  destruct (imported identity); [apply steps_resolve; tc_solve|].
  case_decide; [apply steps_resolve; tc_solve|].
  destruct (negb _); [apply steps_throw; tc_solve|apply steps_resolve; tc_solve].
Qed.

Lemma steps_login this enrollmentID enrollmentSecret :
  steps only_adds_identities (login host this enrollmentID enrollmentSecret).
Proof.
  unfold login.
  apply steps_await; [tc_solve|apply steps_testIdentity|intros identity].
  destruct (negb _); [apply steps_resolve; tc_solve|].
  apply steps_await; [tc_solve|apply steps_read; tc_solve|intros id].
  destruct (negb _); [apply steps_throw; tc_solve|apply steps_resolve; tc_solve].
Qed.

Lemma steps_createIdentity securityContext identityName opts :
  steps only_adds_identities (createIdentity host securityContext identityName opts).
Proof.
  unfold createIdentity.
  destruct (negb _); [apply steps_throw; tc_solve|].
  apply steps_await; [tc_solve|apply steps_ensureCollection|intros _].
  apply steps_await; [tc_solve|apply steps_collection_exists|intros [|]].
  - apply steps_await; [tc_solve|apply steps_collection_get|intros identity].
    apply steps_resolve; tc_solve.
  - apply steps_await; [tc_solve|apply steps_generate|intros keys].
    apply steps_await; [tc_solve|apply steps_v4|intros drawn].
    apply steps_await; [tc_solve|apply steps_collection_add|intros _].
    apply steps_await; [tc_solve|apply steps_collection_add|intros _].
    apply steps_resolve; tc_solve.
Qed.

(** X6: the identity methods only ever add to the collection.  Whatever
    [getIdentity], [testIdentity], [login] and [createIdentity] are called
    with and however they end, every record that was stored is still
    stored, unchanged, under the same key, both registry tables are as
    they were, and the log of collaborator calls has only grown. *)
Theorem identity_methods_only_add this securityContext identityName identitySecret opts w :
  only_adds_identities w (getIdentity host identityName w).2
  ∧ only_adds_identities w (testIdentity host identityName identitySecret w).2
  ∧ only_adds_identities w (login host this identityName identitySecret w).2
  ∧ only_adds_identities w (createIdentity host securityContext identityName opts w).2
  ∧ ∀ key record, identities w !! key = Some record →
      identities (getIdentity host identityName w).2 !! key = Some record
      ∧ identities (testIdentity host identityName identitySecret w).2 !! key = Some record
      ∧ identities (login host this identityName identitySecret w).2 !! key = Some record
      ∧ identities (createIdentity host securityContext identityName opts w).2 !! key
        = Some record.
Proof.
  pose proof (steps_getIdentity identityName w) as Hget.
  pose proof (steps_testIdentity identityName identitySecret w) as Htest.
  pose proof (steps_login this identityName identitySecret w) as Hlogin.
  pose proof (steps_createIdentity securityContext identityName opts w) as Hcreate.
  split_and!; try done.
  intros key record Hkey.
  split_and!; eapply lookup_weaken; try exact Hkey.
  - apply Hget. - apply Htest. - apply Hlogin. - apply Hcreate.
Qed.

Lemma steps_createContainer : steps keeps_identities (createContainer host).
Proof. intros w. split; [done|]. simpl. by apply prefix_app_r. Qed.

Lemma steps_createEngine c : steps keeps_identities (createEngine c).
Proof. intros w. split; [done|]. simpl. by apply prefix_app_r. Qed.

Lemma steps_call_init context fn args : steps keeps_identities (call_init host context fn args).
Proof. intros w. apply keeps_log. Qed.

Lemma steps_call_query context fn args :
  steps keeps_identities (call_query host context fn args).
Proof. intros w. apply keeps_log. Qed.

Lemma steps_call_invoke context fn args :
  steps keeps_identities (call_invoke host context fn args).
Proof. intros w. apply keeps_log. Qed.

Lemma steps_start this securityContext network startTransaction :
  steps keeps_identities (start host this securityContext network startTransaction).
Proof.
  unfold start.
  apply steps_await; [tc_solve|apply steps_createContainer|intros c].
  apply steps_await; [tc_solve|apply steps_createEngine|intros e].
  apply steps_await; [tc_solve|by intros w|intros _].
  apply steps_await; [tc_solve|by intros w|intros _].
  apply steps_call_init.
Qed.

Lemma steps_read_engine slot : steps keeps_identities (read_engine slot).
Proof. destruct slot; [apply steps_resolve|apply steps_resolve|apply steps_throw]; tc_solve. Qed.

Lemma steps_new_EmbeddedContext engine identity connection :
  steps keeps_identities (new_EmbeddedContext engine identity connection).
Proof. destruct engine; [apply steps_resolve|apply steps_throw]; tc_solve. Qed.

Lemma steps_queryChainCode this securityContext functionName args :
  steps keeps_identities (queryChainCode host this securityContext functionName args).
Proof.
  unfold queryChainCode.
  apply steps_await; [tc_solve|apply steps_read; tc_solve|intros slot].
  apply steps_await; [tc_solve|apply steps_read_engine|intros engine].
  apply steps_await; [tc_solve|apply steps_new_EmbeddedContext|intros context].
  apply steps_await; [tc_solve|apply steps_call_query|intros data].
  apply steps_await; [tc_solve|by intros w|intros [text|]].
  - apply steps_resolve; tc_solve.
  - apply steps_throw; tc_solve.
Qed.

Lemma steps_invokeChainCode this securityContext functionName args :
  steps keeps_identities (invokeChainCode host this securityContext functionName args).
Proof.
  unfold invokeChainCode.
  apply steps_await; [tc_solve|apply steps_read; tc_solve|intros slot].
  apply steps_await; [tc_solve|apply steps_read_engine|intros engine].
  apply steps_await; [tc_solve|apply steps_new_EmbeddedContext|intros context].
  apply steps_await; [tc_solve|apply steps_call_invoke|intros data].
  apply steps_resolve; tc_solve.
Qed.

(** X7: the registry and dispatch methods never touch the identities.
    Whatever [start], [undeploy], [queryChainCode], [invokeChainCode] and
    [ping] are called with and however they end, the collection is as it
    was and the log of collaborator calls has only grown. *)
Theorem registry_methods_keep_identities
    this securityContext network startTransaction functionName args w :
  keeps_identities w (start host this securityContext network startTransaction w).2
  ∧ keeps_identities w (undeploy this securityContext network w).2
  ∧ keeps_identities w (queryChainCode host this securityContext functionName args w).2
  ∧ keeps_identities w (invokeChainCode host this securityContext functionName args w).2
  ∧ keeps_identities w (ping host this securityContext w).2.
Proof.
  split_and!.
  - apply steps_start.
  - unfold undeploy, update, deleteBusinessNetwork. simpl.
    destruct (businessNetworks w !! _) as [id|]; [|done].
    by destruct (truthy id).
  - apply steps_queryChainCode.
  - apply steps_invokeChainCode.
  - unfold ping.
    apply steps_await; [tc_solve|apply steps_queryChainCode|intros buffer].
    by intros w'.
Qed.

End Frames.

(** ** How the registry methods compose *)

Section Composition.

Context {Data : Type} (host : Host Data).

(** X8: [start] then [undeploy] of the same pair is a round trip on the
    registry: when the pair was not bound, the container's UUID is not
    empty and no instance was registered under it, both tables are back to
    what they were. *)
Theorem start_then_undeploy_restores this securityContext network startTransaction w :
  getBusinessNetwork network (connectionProfile this) w = None →
  truthy (newContainerUUID host (allocated w)) = true →
  chaincodes w !! newContainerUUID host (allocated w) = None →
  let started := (start host this securityContext network startTransaction w).2 in
  let undeployed := (undeploy this securityContext network started).2 in
  businessNetworks undeployed = businessNetworks w
  ∧ chaincodes undeployed = chaincodes w.
Proof.
  intros Hunbound Htruthy Hfresh. cbv zeta. rewrite start_run.
  unfold getBusinessNetwork in Hunbound.
  unfold undeploy, update, deleteBusinessNetwork. simpl.
  rewrite lookup_insert_eq, Htruthy. simpl.
  rewrite !delete_insert_eq. by rewrite !delete_id.
Qed.

(** X9: an instance replaced by a second [start] of its pair is never
    removed by [undeploy].  When a bound pair is started again with a
    container of another, non-empty UUID and then undeployed, the pair is
    unbound, the new instance is gone, and the instance the pair was bound
    to at first is still registered; undeploying again changes nothing. *)
Theorem restart_then_undeploy_leaks this securityContext network startTransaction w id0 cc0 :
  getBusinessNetwork network (connectionProfile this) w = Some id0 →
  chaincodes w !! id0 = Some cc0 →
  newContainerUUID host (allocated w) ≠ id0 →
  truthy (newContainerUUID host (allocated w)) = true →
  let started := (start host this securityContext network startTransaction w).2 in
  let undeployed := (undeploy this securityContext network started).2 in
  getBusinessNetwork network (connectionProfile this) undeployed = None
  ∧ chaincodes undeployed !! newContainerUUID host (allocated w) = None
  ∧ chaincodes undeployed !! id0 = Some cc0
  ∧ (undeploy this securityContext network undeployed).2 = undeployed.
Proof.
  intros Hbound Hlive Hne Htruthy. cbv zeta. rewrite start_run.
  unfold getBusinessNetwork in *.
  unfold undeploy, update, deleteBusinessNetwork. simpl.
  rewrite lookup_insert_eq, Htruthy. simpl.
  rewrite !lookup_delete_eq. split_and!; try done.
  rewrite lookup_delete_ne, lookup_insert_ne by done. done.
Qed.

(** X10: when the context's chaincode id resolves to an instance,
    [queryChainCode] and [invokeChainCode] make exactly one call, to that
    instance's engine, on a context with that engine, the caller's identity
    and this connection, and with the function name and arguments as
    given.  A query resolves with the JSON text of the data the engine
    returned when the data has one; it rejects with a TypeError when
    [JSON.stringify] gives [undefined] for the data, and with the exception
    of [JSON.stringify] when that throws.  An invoke resolves with nothing
    whatever the engine returned, and either method rejects with the
    engine's exception when the engine rejects. *)
Theorem dispatch_resolved_calls_engine this securityContext functionName args w cc :
  getChaincode (getChaincodeID securityContext) w = SlotInstance cc →
  let context := {| ctx_engine := engine cc; ctx_identity := getIdentity_sc securityContext;
                    ctx_connection := this |} in
  let queried := log (CallEngineQuery (engine cc) functionName args) w in
  let invoked := log (CallEngineInvoke (engine cc) functionName args) w in
  (queryChainCode host this securityContext functionName args w).2 = queried
  ∧ (invokeChainCode host this securityContext functionName args w).2 = invoked
  ∧ (∀ data text,
       engine_query host queried context functionName args = Resolved data →
       JSON_stringify host data = Resolved (Some text) →
       (queryChainCode host this securityContext functionName args w).1 = Resolved text)
  ∧ (∀ data,
       engine_query host queried context functionName args = Resolved data →
       JSON_stringify host data = Resolved None →
       (queryChainCode host this securityContext functionName args w).1
       = Rejected (TypeErrorInvalidArgument "Buffer.from"))
  ∧ (∀ data e,
       engine_query host queried context functionName args = Resolved data →
       JSON_stringify host data = Rejected e →
       (queryChainCode host this securityContext functionName args w).1 = Rejected e)
  ∧ (∀ data, engine_invoke host invoked context functionName args = Resolved data →
       (invokeChainCode host this securityContext functionName args w).1 = Resolved tt)
  ∧ (∀ e, engine_query host queried context functionName args = Rejected e →
       (queryChainCode host this securityContext functionName args w).1 = Rejected e)
  ∧ (∀ e, engine_invoke host invoked context functionName args = Rejected e →
       (invokeChainCode host this securityContext functionName args w).1 = Rejected e).
Proof.
  intros Hcc. cbv zeta.
  rewrite (queryChainCode_resolved _ _ _ _ _ _ _ Hcc).
  rewrite (invokeChainCode_resolved _ _ _ _ _ _ _ Hcc). simpl.
  split_and!; try done.
  - intros data text Hcall Htext. by rewrite Hcall, Htext.
  - intros data Hcall Htext. by rewrite Hcall, Htext.
  - intros data e Hcall Htext. by rewrite Hcall, Htext.
  - intros data Hcall. by rewrite Hcall.
  - intros e Hcall. by rewrite Hcall.
  - intros e Hcall. by rewrite Hcall.
Qed.

(** X11: [ping] is a query named [ping] with no arguments whose JSON text
    is parsed back.  On a context whose chaincode id resolves to an
    instance it calls the engine once with that name and an empty argument
    list; when the answer has a JSON text it gives what [JSON.parse] makes
    of that text, and when [JSON.stringify] gives [undefined] for the
    answer it rejects with the TypeError of the query.  When the id
    resolves to no instance it rejects as the query does, with the
    runtime's TypeError, without calling the engine. *)
Theorem ping_queries_and_parses this securityContext w :
  (∀ cc data,
     getChaincode (getChaincodeID securityContext) w = SlotInstance cc →
     engine_query host (log (CallEngineQuery (engine cc) "ping" []) w)
       {| ctx_engine := engine cc; ctx_identity := getIdentity_sc securityContext;
          ctx_connection := this |} "ping" [] = Resolved data →
     (∀ text, JSON_stringify host data = Resolved (Some text) →
        ping host this securityContext w
        = (JSON_parse host text, log (CallEngineQuery (engine cc) "ping" []) w))
     ∧ (JSON_stringify host data = Resolved None →
        ping host this securityContext w
        = (Rejected (TypeErrorInvalidArgument "Buffer.from"),
           log (CallEngineQuery (engine cc) "ping" []) w)))
  ∧ (registered (getChaincode (getChaincodeID securityContext) w) = None →
     ping host this securityContext w
     = (Rejected (unresolved_failure (getChaincodeID securityContext)), w)).
Proof.
  split.
  - intros cc data Hcc Hdata. unfold ping, await.
    rewrite (queryChainCode_resolved _ _ _ _ _ _ _ Hcc). rewrite Hdata.
    split.
    + intros text Htext. by rewrite Htext.
    + intros Htext. by rewrite Htext.
  - intros Hnone. unfold ping, await.
    by rewrite (proj1 (dispatch_unresolved _ this _ "ping" [] _ Hnone)).
Qed.

Lemma login_run this enrollmentID enrollmentSecret w :
  login host this enrollmentID enrollmentSecret w
  = match testIdentity host enrollmentID enrollmentSecret w with
    | (Rejected e, w1) => (Rejected e, w1)
    | (Resolved identity, w1) =>
        if truthy_opt (businessNetworkIdentifier this) then
          let network := default "" (businessNetworkIdentifier this) in
          if truthy_opt (getBusinessNetwork network (connectionProfile this) w1) then
            (Resolved {| sc_connection := this; getIdentity_sc := identity;
                         getChaincodeID :=
                           JsString (default ""
                             (getBusinessNetwork network (connectionProfile this) w1)) |},
             w1)
          else (Rejected (NoChaincodeID network), w1)
        else
          (Resolved {| sc_connection := this; getIdentity_sc := identity;
                       getChaincodeID := JsNull |}, w1)
    end.
Proof.
  unfold login, await.
  destruct (testIdentity host enrollmentID enrollmentSecret w) as [[identity|e] w1]; [|done].
  destruct (truthy_opt (businessNetworkIdentifier this)); simpl; [|done].
  unfold read. by destruct (truthy_opt (getBusinessNetwork _ _ w1)).
Qed.

(** X12: [login] authenticates first and looks the network up second.  If
    [testIdentity] rejects, [login] rejects with the same exception.  If it
    resolves: a connection without a network gets a context with the
    identity and no chaincode id, whatever the registry holds; a connection
    whose pair is bound to a non-empty id gets a context with the identity
    and that id; and a connection whose pair is not bound is rejected with
    the error that names the network. *)
Theorem login_authenticates_then_binds this enrollmentID enrollmentSecret w :
  let tested := testIdentity host enrollmentID enrollmentSecret w in
  let result := login host this enrollmentID enrollmentSecret w in
  result.2 = tested.2
  ∧ (∀ e, tested.1 = Rejected e → result.1 = Rejected e)
  ∧ (∀ identity, tested.1 = Resolved identity →
       (truthy_opt (businessNetworkIdentifier this) = false →
        ∃ securityContext, result.1 = Resolved securityContext
          ∧ getIdentity_sc securityContext = identity
          ∧ ∀ id, getChaincodeID securityContext ≠ JsString id)
       ∧ (∀ network id,
            businessNetworkIdentifier this = Some network → truthy network = true →
            getBusinessNetwork network (connectionProfile this) tested.2 = Some id →
            truthy id = true →
            ∃ securityContext, result.1 = Resolved securityContext
              ∧ getIdentity_sc securityContext = identity
              ∧ getChaincodeID securityContext = JsString id)
       ∧ (∀ network,
            businessNetworkIdentifier this = Some network → truthy network = true →
            truthy_opt (getBusinessNetwork network (connectionProfile this) tested.2)
            = false →
            result.1 = Rejected (NoChaincodeID network)
            ∧ ∃ message, NoChaincodeID network = Error message ∧ carries message network)).
Proof.
  cbv zeta. rewrite login_run.
  destruct (testIdentity host enrollmentID enrollmentSecret w) as [[identity|e] w1]; simpl.
  - split_and!; [|done|].
    + destruct (truthy_opt (businessNetworkIdentifier this)); [|done].
      by destruct (truthy_opt (getBusinessNetwork _ _ w1)).
    + intros ? [= <-]. split_and!.
      * intros ->. eexists. split_and!; done.
      * intros network id -> Hnet Hid Htruthy. simpl. rewrite Hnet, Hid. simpl.
        rewrite Htruthy. eexists. split_and!; done.
      * intros network -> Hnet Hunbound. simpl. rewrite Hnet, Hunbound.
        split; [done|]. eexists. split; [reflexivity|].
        by exists "No chaincode ID found for business network '", "'".
  - split_and!; [done| |done]. by intros ? [= <-].
Qed.

End Composition.

(** ** Sessions: binding a context and using it *)

Section Sessions.

Context {Data : Type} (host : Host Data).

Lemma login_bound this enrollmentID enrollmentSecret network securityContext w w1 :
  businessNetworkIdentifier this = Some network →
  truthy network = true →
  login host this enrollmentID enrollmentSecret w = (Resolved securityContext, w1) →
  ∃ id, getBusinessNetwork network (connectionProfile this) w1 = Some id
        ∧ truthy id = true
        ∧ getChaincodeID securityContext = JsString id
        ∧ businessNetworks w1 = businessNetworks w
        ∧ chaincodes w1 = chaincodes w.
Proof.
  intros Hnet Htruthy. rewrite login_run.
  pose proof (steps_testIdentity host enrollmentID enrollmentSecret w) as (_ & Hb & Hc & _).
  destruct (testIdentity host enrollmentID enrollmentSecret w) as [[identity|e] w1'];
    [|done].
  simpl in Hb, Hc. rewrite Hnet. simpl. rewrite Htruthy.
  destruct (getBusinessNetwork network (connectionProfile this) w1') as [id|] eqn:Hid;
    simpl; [|done].
  destruct (truthy id) eqn:Hidt; [|done].
  intros [= <- <-]. exists id. by rewrite Hid.
Qed.

(** X13: a network that has been started can be logged in to and used,
    whether or not the engine accepted its [init].  After [start] with a
    container of non-empty UUID, a [login] on a connection for that network
    and profile by a user [testIdentity] accepts gives a context bound to
    the new chaincode id, and a query or an invoke on that context goes to
    the engine [start] created. *)
Theorem start_then_login_then_dispatch
    this securityContext network startTransaction enrollmentID enrollmentSecret identity
    functionName args w :
  businessNetworkIdentifier this = Some network →
  truthy network = true →
  truthy (newContainerUUID host (allocated w)) = true →
  let started := (start host this securityContext network startTransaction w).2 in
  (testIdentity host enrollmentID enrollmentSecret started).1 = Resolved identity →
  let c := {| container_ref := allocated w;
              getUUID := newContainerUUID host (allocated w) |} in
  let e := {| engine_ref := S (allocated w); getContainer := c |} in
  ∃ session w1,
    login host this enrollmentID enrollmentSecret started = (Resolved session, w1)
    ∧ getIdentity_sc session = identity
    ∧ getChaincodeID session = JsString (getUUID c)
    ∧ getChaincode (getChaincodeID session) w1
      = SlotInstance {| uuid := getUUID c; container := c; engine := e |}
    ∧ calls (queryChainCode host this session functionName args w1).2
      = (calls w1 ++ [CallEngineQuery e functionName args])%list
    ∧ calls (invokeChainCode host this session functionName args w1).2
      = (calls w1 ++ [CallEngineInvoke e functionName args])%list.
Proof.
  intros Hnet Htruthy Huuid. cbv zeta.
  generalize (start_businessNetworks host this securityContext network startTransaction w)
             (start_chaincodes host this securityContext network startTransaction w).
  generalize (start host this securityContext network startTransaction w).2.
  unfold addChaincode_entry. simpl.
  intros started Hsb Hsc Htested.
  pose proof (steps_testIdentity host enrollmentID enrollmentSecret started)
    as (_ & Hb & Hc & _).
  assert (Hlogin := login_run host this enrollmentID enrollmentSecret started).
  destruct (testIdentity host enrollmentID enrollmentSecret started) as [[identity'|err] w1];
    simpl in Htested, Hb, Hc; [|done].
  injection Htested as ->.
  assert (Hbinding : getBusinessNetwork network (connectionProfile this) w1
                     = Some (newContainerUUID host (allocated w))).
  { unfold getBusinessNetwork. rewrite Hb, Hsb. apply lookup_insert_eq. }
  rewrite Hnet in Hlogin. simpl in Hlogin. rewrite Htruthy, Hbinding in Hlogin.
  simpl in Hlogin. rewrite Huuid in Hlogin.
  eexists _, w1. split; [exact Hlogin|]. simpl.
  assert (Hinstance : getChaincode (JsString (newContainerUUID host (allocated w))) w1
                      = SlotInstance (addChaincode_instance host w)).
  { apply getChaincode_instance. simpl. rewrite Hc, Hsc. apply lookup_insert_eq. }
  split_and!; try done.
  - by erewrite queryChainCode_resolved; [|exact Hinstance].
  - by erewrite invokeChainCode_resolved; [|exact Hinstance].
Qed.


(** X15: [start] keeps every binding live, however [init] ends: if every
    pair bound to a non-empty id led to a registered instance before, it
    does after.  [reset] makes it so, and [undeploy] keeps it so provided
    no other pair is bound to the id of the pair it removes. *)
Theorem bindings_live_preserved this securityContext network startTransaction w :
  bindings_live (reset w)
  ∧ (bindings_live w →
     bindings_live (start host this securityContext network startTransaction w).2)
  ∧ (bindings_live w →
     (∀ key id, getBusinessNetwork network (connectionProfile this) w = Some id →
                businessNetworks w !! key = Some id →
                key = bindingKey network (connectionProfile this)) →
     bindings_live (undeploy this securityContext network w).2).
Proof.
  split_and!.
  - intros key id. unfold reset. simpl. rewrite delete_each_empty. by rewrite lookup_empty.
  - intros Hlive key id. rewrite start_businessNetworks, start_chaincodes.
    unfold addChaincode_entry. simpl. intros Hkey Htruthy.
    destruct (decide (id = newContainerUUID host (allocated w))) as [->|Hne].
    + rewrite lookup_insert_eq. eauto.
    + rewrite lookup_insert_ne by done.
      destruct (decide (bindingKey network (connectionProfile this) = key)) as [<-|Hk].
      * rewrite lookup_insert_eq in Hkey. congruence.
      * rewrite lookup_insert_ne in Hkey by done. eauto.
  - intros Hlive Hunique key id.
    unfold undeploy, update, deleteBusinessNetwork, getBusinessNetwork in *. simpl.
    destruct (businessNetworks w !! bindingKey network (connectionProfile this))
      as [id0|] eqn:Hpair; [|by apply Hlive].
    destruct (truthy id0) eqn:Hid0; [|by apply Hlive]. simpl.
    intros Hkey Htruthy. apply lookup_delete_Some in Hkey as [Hk Hkey].
    rewrite lookup_delete_ne; [by eapply Hlive|].
    intros ->. apply Hk. symmetry. by eapply Hunique.
Qed.

(** X16: with live bindings, a context from [login] always dispatches.
    If every binding is live and [login] on a connection for a network
    resolves, the chaincode id of the context resolves to a registered
    instance in the world [login] leaves. *)
Theorem login_session_resolves this enrollmentID enrollmentSecret network session w w1 :
  bindings_live w →
  businessNetworkIdentifier this = Some network →
  truthy network = true →
  login host this enrollmentID enrollmentSecret w = (Resolved session, w1) →
  bindings_live w1 ∧ is_Some (registered (getChaincode (getChaincodeID session) w1)).
Proof.
  intros Hlive Hnet Htruthy Hlogin.
  destruct (login_bound _ _ _ _ _ _ _ Hnet Htruthy Hlogin)
    as (id & Hbinding & Hid & Hsession & Hb & Hc).
  assert (Hlive1 : bindings_live w1).
  { intros key id'. rewrite Hb, Hc. apply Hlive. }
  split; [done|]. rewrite registered_getChaincode, Hsession. simpl.
  by eapply Hlive1.
Qed.

(** X17: every instance is registered under its own [uuid].  [reset] makes
    it so, and [addChaincode] with any arguments, [start] and [undeploy]
    keep it so. *)
Theorem chaincodes_keyed_preserved
    this securityContext network startTransaction id c e w :
  chaincodes_keyed (reset w)
  ∧ (chaincodes_keyed w → chaincodes_keyed (addChaincode id c e w))
  ∧ (chaincodes_keyed w →
     chaincodes_keyed (start host this securityContext network startTransaction w).2)
  ∧ (chaincodes_keyed w → chaincodes_keyed (undeploy this securityContext network w).2).
Proof.
  split_and!.
  - intros key cc. unfold reset. simpl. rewrite delete_each_empty. by rewrite lookup_empty.
  - intros Hkeyed key cc. unfold addChaincode. simpl.
    intros [[<- <-]|[_ Hcc]]%lookup_insert_Some; [done|by apply Hkeyed].
  - intros Hkeyed key cc. rewrite start_chaincodes. unfold addChaincode_entry. simpl.
    intros [[<- <-]|[_ Hcc]]%lookup_insert_Some; [done|by apply Hkeyed].
  - intros Hkeyed key cc. unfold undeploy, update, deleteBusinessNetwork. simpl.
    destruct (businessNetworks w !! _) as [id0|]; [|by apply Hkeyed].
    destruct (truthy id0); [|by apply Hkeyed]. simpl.
    intros [_ Hcc]%lookup_delete_Some. by apply Hkeyed.
Qed.

End Sessions.

(** * Further properties of the identities *)

Section IdentityLifecycle.

Context {Data : Type} (host : Host Data).

Lemma testIdentity_stored identityName identitySecret record w :
  identities w !! identityName = Some record →
  testIdentity host identityName identitySecret w
  = (if imported record then Resolved record
     else if decide (identityName = "admin") then Resolved record
     else if bool_decide (secret record = identitySecret) then Resolved record
     else Rejected (SecretMismatch identitySecret identityName (secret record)),
     looked_up identityName w).
Proof.
  intros Hget. unfold testIdentity, await. rewrite (getIdentity_stored _ _ _ _ Hget).
  destruct (imported record); [done|]. case_decide; [done|].
  by destruct (bool_decide _).
Qed.

Lemma getIdentity_admin_bootstrap w :
  identities w !! "admin" = None →
  let admin := bootstrap_admin host w in
  let result := getIdentity host "admin" w in
  (identifier admin ≠ "admin" → identities w !! identifier admin = None →
   result.1 = Resolved admin
   ∧ identities result.2 = <[identifier admin := admin]> (<["admin" := admin]> (identities w)))
  ∧ (identifier admin = "admin" ∨ is_Some (identities w !! identifier admin) →
     result.1 = Rejected (CollectionDuplicate (identifier admin))
     ∧ identities result.2 = <["admin" := admin]> (identities w)).
Proof.
  intros Hadmin admin result. subst result.
  unfold getIdentity. run_async. rewrite Hadmin. simpl.
  unfold _createAdminIdentity. run_async. rewrite Hadmin. simpl.
  fold (bootstrap_admin host w). fold admin.
  change (Certificate_getIdentifier host
            (km_certificate (CertificateUtil_generate host (allocated w) "admin")))
    with (identifier admin).
  split.
  - intros Hne Hfresh. rewrite lookup_insert_ne by done. by rewrite Hfresh.
  - intros [Heq|[other Hother]].
    + rewrite Heq, lookup_insert_eq. done.
    + destruct (decide (identifier admin = "admin")) as [Heq|Hne].
      * rewrite Heq, lookup_insert_eq. done.
      * rewrite lookup_insert_ne by done. by rewrite Hother.
Qed.

Lemma paired_insert_pair (m : gmap string Identity) key record :
  paired m →
  m !! key = None →
  identifier record ≠ key →
  m !! identifier record = None →
  paired (<[identifier record := record]> (<[key := record]> m)).
Proof.
  intros Hpaired Hkey Hne Hfresh k r.
  intros [[<- <-]|[Hk1 [[<- <-]|[Hk2 Hr]]%lookup_insert_Some]]%lookup_insert_Some.
  - apply lookup_insert_eq.
  - apply lookup_insert_eq.
  - pose proof (Hpaired _ _ Hr) as Hid.
    rewrite !lookup_insert_ne; [done|congruence|congruence].
Qed.

(** X18: the calls that resolve keep every record stored twice.  If every
    stored record is also stored, the same, under its identifier, then this
    still holds after a [getIdentity] or a [createIdentity] that resolves. *)
Theorem resolved_calls_keep_records_paired securityContext identityName opts w :
  paired (identities w) →
  (∀ identity w1,
     getIdentity host identityName w = (Resolved identity, w1) → paired (identities w1))
  ∧ (∀ credentials w1,
       createIdentity host securityContext identityName opts w = (Resolved credentials, w1) →
       paired (identities w1)).
Proof.
  intros Hpaired. split.
  - intros identity w1 Hrun.
    destruct (identities w !! identityName) as [record|] eqn:Hget.
    { rewrite (getIdentity_stored _ _ _ _ Hget) in Hrun. by injection Hrun as <- <-. }
    destruct (decide (identityName = "admin")) as [->|Hne];
      [|by rewrite getIdentity_missing in Hrun].
    destruct (getIdentity_admin_bootstrap w Hget) as [Hok Hdup].
    rewrite Hrun in Hok, Hdup. cbn [fst snd] in Hok, Hdup.
    destruct (decide (identifier (bootstrap_admin host w) = "admin")) as [Heq|Hne].
    { by destruct (Hdup (or_introl Heq)). }
    destruct (identities w !! identifier (bootstrap_admin host w)) eqn:Hother.
    { by destruct (Hdup (or_intror (mk_is_Some _ _ eq_refl))). }
    destruct (Hok Hne eq_refl) as [_ ->]. by apply paired_insert_pair.
  - intros credentials w1 Hrun.
    destruct (identities w !! identityName) as [record|] eqn:Hget.
    + destruct (truthy_flag (options_issuer (options (getIdentity_sc securityContext))))
        eqn:Hissuer; [|by rewrite (createIdentity_not_issuer host) in Hrun].
      rewrite (createIdentity_existing host _ _ _ _ _ Hissuer Hget) in Hrun.
      by injection Hrun as <- <-.
    + destruct (createIdentity_new_resolved host _ _ _ _ _ _ Hget Hrun)
        as (Hne & Hfresh & _ & ->).
      by apply paired_insert_pair.
Qed.

(** X19: the credentials [createIdentity] issues for a new name
    authenticate.  After the call has resolved, [testIdentity] on the name
    with the issued secret resolves with the record that was stored, and so
    does [testIdentity] on the record's identifier; on a name other than
    [admin], any other secret is rejected as a mismatch. *)
Theorem issued_credentials_authenticate securityContext identityName opts credentials w w1 :
  identities w !! identityName = None →
  createIdentity host securityContext identityName opts w = (Resolved credentials, w1) →
  let record := issued_record host identityName opts w in
  userID credentials = name record
  ∧ userSecret credentials = secret record
  ∧ (testIdentity host identityName (userSecret credentials) w1).1 = Resolved record
  ∧ (identifier record ≠ "admin" →
     (testIdentity host (identifier record) (userSecret credentials) w1).1
     = Resolved record)
  ∧ (∀ other, identityName ≠ "admin" → other ≠ userSecret credentials →
       (testIdentity host identityName other w1).1
       = Rejected (SecretMismatch other identityName (userSecret credentials))).
Proof.
  intros Hnew Hrun record.
  destruct (createIdentity_new_resolved host _ _ _ _ _ _ Hnew Hrun) as (Hne & Hfresh & -> & Hstore).
  fold record in Hne, Hfresh, Hstore. simpl.
  assert (Hname : identities w1 !! identityName = Some record).
  { rewrite Hstore, lookup_insert_ne by done. apply lookup_insert_eq. }
  assert (Hid : identities w1 !! identifier record = Some record).
  { rewrite Hstore. apply lookup_insert_eq. }
  split_and!; try done.
  - rewrite (testIdentity_stored _ _ _ _ Hname). simpl.
    case_decide; [done|]. by rewrite bool_decide_eq_true_2.
  - intros Hnotadmin. rewrite (testIdentity_stored _ _ _ _ Hid). simpl.
    rewrite decide_False by done. by rewrite bool_decide_eq_true_2.
  - intros other Hnotadmin Hother. rewrite (testIdentity_stored _ _ _ _ Hname). simpl.
    rewrite decide_False by done. by rewrite bool_decide_eq_false_2.
Qed.

Lemma substring_prefix_bound (n : nat) (s : string) :
  (String.length (String.substring 0 n s) ≤ n)%nat
  ∧ (String.length (String.substring 0 n s) ≤ String.length s)%nat
  ∧ is_prefix (String.substring 0 n s) s = true.
Proof.
  revert s. induction n as [|n IH]; intros [|a s]; simpl; try (split_and!; done || lia).
  destruct (IH s) as (H1 & H2 & H3). rewrite H3.
  rewrite bool_decide_eq_true_2 by done. split_and!; [lia|lia|done].
Qed.

(** X20: the secret issued for a new name is the first eight characters
    of the drawn UUID: it is a prefix of the draw, at most eight characters
    long, and exactly eight when the draw has at least eight. *)
Theorem issued_secret_is_uuid_prefix securityContext identityName opts credentials w w1 :
  identities w !! identityName = None →
  createIdentity host securityContext identityName opts w = (Resolved credentials, w1) →
  let drawn := uuid_v4 host (S (allocated w)) in
  is_prefix (userSecret credentials) drawn = true
  ∧ (String.length (userSecret credentials) ≤ 8)%nat
  ∧ ((8 ≤ String.length drawn)%nat → String.length (userSecret credentials) = 8).
Proof.
  intros Hnew Hrun drawn.
  destruct (createIdentity_new_resolved host _ _ _ _ _ _ Hnew Hrun) as (_ & _ & -> & _).
  simpl. fold drawn.
  destruct (substring_prefix_bound 8 drawn) as (Hlen & _ & Hprefix).
  split_and!; [done|done|].
  intros Hlong. clear -Hlong.
  do 8 (destruct drawn as [|? drawn]; [simpl in Hlong; lia|]).
  by destruct drawn.
Qed.

(** X21: [createIdentity] is not atomic.  For an issuer and a new name,
    when the identifier derived from the new certificate is the name itself
    or a key already in use, the call rejects with the collection's
    duplicate error, but the record is already stored under the name; a
    second call for the name then resolves with that record's credentials
    and stores nothing. *)
Theorem createIdentity_keeps_name_record_on_failure securityContext identityName opts w :
  truthy_flag (options_issuer (options (getIdentity_sc securityContext))) = true →
  identities w !! identityName = None →
  let record := issued_record host identityName opts w in
  identifier record = identityName ∨ is_Some (identities w !! identifier record) →
  let first := createIdentity host securityContext identityName opts w in
  let second := createIdentity host securityContext identityName opts first.2 in
  first.1 = Rejected (CollectionDuplicate (identifier record))
  ∧ identities first.2 = <[identityName := record]> (identities w)
  ∧ second.1 = Resolved {| userID := name record; userSecret := secret record |}
  ∧ identities second.2 = identities first.2.
Proof.
  intros Hissuer Hnew record Hclash first second.
  destruct (createIdentity_new host securityContext identityName opts w Hissuer Hnew)
    as [_ Hdup].
  destruct (Hdup Hclash) as [Hout Hstore]. fold first in Hout, Hstore.
  assert (Hget : identities first.2 !! identityName = Some record).
  { rewrite Hstore. apply lookup_insert_eq. }
  subst second. rewrite (createIdentity_existing host _ _ _ _ _ Hissuer Hget). done.
Qed.

(** X22: the right to issue is not inherited.  An identity created
    without options, or with options whose [issuer] is not true, cannot
    create identities itself: [createIdentity] called under it rejects with
    the permission error and changes nothing.  One created with
    [issuer: true] is never rejected with an error of the connector's: its
    calls resolve or fail in the collection. *)
Theorem issuer_right_comes_from_options
    securityContext identityName opts credentials w w1 chaincodeID other w2 :
  identities w !! identityName = None →
  createIdentity host securityContext identityName opts w = (Resolved credentials, w1) →
  let record := issued_record host identityName opts w in
  let session := {| sc_connection := sc_connection securityContext;
                    getIdentity_sc := record; getChaincodeID := chaincodeID |} in
  identities w1 !! identityName = Some record
  ∧ imported record = false
  ∧ ((opts = None ∨ ∃ o, opts = Some o ∧ options_issuer o ≠ Some true) →
     createIdentity host session other None w2
     = (Rejected (NotAnIssuer (name record) other), w2))
  ∧ ((∃ o, opts = Some o ∧ options_issuer o = Some true) →
     ∀ message, (createIdentity host session other None w2).1 ≠ Rejected (Error message)).
Proof.
  intros Hnew Hrun record session.
  destruct (createIdentity_new_resolved host _ _ _ _ _ _ Hnew Hrun) as (Hne & _ & _ & Hstore).
  split_and!; try done.
  - rewrite Hstore, lookup_insert_ne by done. apply lookup_insert_eq.
  - intros Hopts. apply createIdentity_not_issuer. simpl.
    destruct Hopts as [->|(o & -> & Ho)]; [done|]. simpl.
    by destruct (options_issuer o) as [[|]|].
  - intros (o & -> & Ho) message.
    assert (Hissuer : truthy_flag (options_issuer (options (getIdentity_sc session))) = true)
      by (simpl; by rewrite Ho).
    destruct (identities w2 !! other) as [existing|] eqn:Hother.
    { by rewrite (createIdentity_existing host _ _ _ _ _ Hissuer Hother). }
    destruct (createIdentity_new host session other None w2 Hissuer Hother) as [Hok Hdup].
    destruct (decide (identifier (issued_record host other None w2) = other)) as [Heq|Hneq].
    { destruct (Hdup (or_introl Heq)) as [-> _]. done. }
    destruct (identities w2 !! identifier (issued_record host other None w2)) eqn:Hid.
    { destruct (Hdup (or_intror (mk_is_Some _ _ eq_refl))) as [-> _]. done. }
    destruct (Hok Hneq eq_refl) as [-> _]. done.
Qed.

(** X23: the first authentication as [admin] creates the administrator.
    When nothing is stored under [admin] and the identifier of the
    generated certificate is a free key, [testIdentity("admin", secret)]
    resolves for every secret with the bootstrap record, which is then
    stored under [admin] and under its identifier and has the right to
    issue identities. *)
Theorem admin_bootstraps_on_first_test identitySecret w :
  let admin := bootstrap_admin host w in
  identities w !! "admin" = None →
  identifier admin ≠ "admin" →
  identities w !! identifier admin = None →
  let result := testIdentity host "admin" identitySecret w in
  result.1 = Resolved admin
  ∧ identities result.2 !! "admin" = Some admin
  ∧ identities result.2 !! identifier admin = Some admin
  ∧ truthy_flag (options_issuer (options admin)) = true.
Proof.
  intros admin Hnone Hne Hfresh result.
  destruct (getIdentity_admin_bootstrap w Hnone) as [Hok _].
  destruct (Hok Hne Hfresh) as [Hout Hstore]. fold admin in Hout, Hstore.
  subst result. unfold testIdentity, await.
  destruct (getIdentity host "admin" w) as [o w1]. cbn [fst snd] in Hout, Hstore.
  subst o. simpl. rewrite Hstore. split_and!; try done.
  - rewrite lookup_insert_ne by done. apply lookup_insert_eq.
  - apply lookup_insert_eq.
Qed.

(** X24: the exemption of [admin] from the secret check goes with the name
    asked for, not with the record.  Once the administrator is stored, a
    [testIdentity] on its identifier resolves exactly when the secret given
    is [adminpw], while one on the name [admin] resolves for any secret. *)
Theorem admin_by_identifier_needs_secret admin identitySecret w :
  identities w !! "admin" = Some admin →
  identities w !! identifier admin = Some admin →
  identifier admin ≠ "admin" →
  imported admin = false →
  secret admin = "adminpw" →
  (testIdentity host "admin" identitySecret w).1 = Resolved admin
  ∧ ((testIdentity host (identifier admin) identitySecret w).1 = Resolved admin
     ↔ identitySecret = "adminpw").
Proof.
  intros Hname Hid Hne Himp Hsecret.
  rewrite (testIdentity_stored _ _ _ _ Hname), (testIdentity_stored _ _ _ _ Hid).
  rewrite Himp, Hsecret. simpl. rewrite decide_False by done. split; [done|].
  case_bool_decide; split; try done; congruence.
Qed.

(** X25: the bootstrap of the administrator is not atomic either.  When
    nothing is stored under [admin] but the identifier of the generated
    certificate is a key in use, [getIdentity("admin")] rejects with the
    collection's duplicate error after it has stored the record under
    [admin]; the key in use keeps its record, and the next
    [getIdentity("admin")] resolves with the record stored by the first. *)
Theorem admin_bootstrap_keeps_name_record_on_failure other w :
  let admin := bootstrap_admin host w in
  identities w !! "admin" = None →
  identifier admin ≠ "admin" →
  identities w !! identifier admin = Some other →
  let first := getIdentity host "admin" w in
  let second := getIdentity host "admin" first.2 in
  first.1 = Rejected (CollectionDuplicate (identifier admin))
  ∧ identities first.2 !! "admin" = Some admin
  ∧ identities first.2 !! identifier admin = Some other
  ∧ second.1 = Resolved admin
  ∧ identities second.2 = identities first.2.
Proof.
  intros admin Hnone Hne Hother first second.
  destruct (getIdentity_admin_bootstrap w Hnone) as [_ Hdup].
  destruct (Hdup (or_intror (mk_is_Some _ _ Hother))) as [Hout Hstore].
  fold admin first in Hout, Hstore.
  assert (Hget : identities first.2 !! "admin" = Some admin).
  { rewrite Hstore. apply lookup_insert_eq. }
  subst second. rewrite (getIdentity_stored _ _ _ _ Hget). simpl.
  split_and!; try done.
  rewrite Hstore, lookup_insert_ne by done. done.
Qed.

End IdentityLifecycle.

(** ** The further properties on the fixtures *)

Lemma bindingKey_injective_witness :
  includes "@" "testnetwork" = false
  ∧ ∀ profile, bindingKey "testnetwork" profile = bindingKey "testnetwork" "devFabric1" →
               profile = "devFabric1".
Proof.
  split; [reflexivity|]. intros profile Hkey.
  exact (proj2 (bindingKey_injective "testnetwork" profile "testnetwork" "devFabric1"
                  eq_refl eq_refl Hkey)).
Defined.

Lemma start_then_undeploy_restores_witness :
  let started := (start okHost devFabric1 bobContext "testnetwork" "{}" emptyWorld).2 in
  businessNetworks (undeploy devFabric1 bobContext "testnetwork" started).2 = ∅
  ∧ chaincodes (undeploy devFabric1 bobContext "testnetwork" started).2 = ∅.
Proof.
  exact (start_then_undeploy_restores okHost devFabric1 bobContext "testnetwork" "{}"
           emptyWorld eq_refl eq_refl eq_refl).
Defined.

Lemma restart_then_undeploy_leaks_witness :
  let restarted := (start okHost devFabric1 bobContext "testnetwork" "{}" startedWorld).2 in
  let undeployed := (undeploy devFabric1 bobContext "testnetwork" restarted).2 in
  getBusinessNetwork "testnetwork" "devFabric1" undeployed = None
  ∧ is_Some (chaincodes undeployed !! "133c00a3-8555-4aa5-9165-9de9a8f8a838").
Proof.
  edestruct (restart_then_undeploy_leaks okHost devFabric1 bobContext "testnetwork" "{}"
               startedWorld) as (Hunbound & _ & Hleft & _).
  - reflexivity.
  - reflexivity.
  - discriminate.
  - reflexivity.
  - cbv zeta. split; [exact Hunbound|]. eexists. exact Hleft.
Defined.

Lemma dispatch_resolved_witness :
  (queryChainCode okHost testnetworkConnection bobSession "testFunction" ["arg1"; "arg2"]
     startedBobWorld).1
  = Resolved "data from engine"
  ∧ (invokeChainCode okHost testnetworkConnection bobSession "testFunction" ["arg1"; "arg2"]
       startedBobWorld).1
    = Resolved tt.
Proof.
  edestruct (dispatch_resolved_calls_engine okHost testnetworkConnection bobSession
               "testFunction" ["arg1"; "arg2"] startedBobWorld)
    as (_ & _ & Hquery & _ & _ & Hinvoke & _).
  - reflexivity.
  - split.
    + exact (Hquery _ _ eq_refl eq_refl).
    + exact (Hinvoke _ eq_refl).
Defined.

Lemma start_then_login_then_dispatch_witness :
  ∃ session w1,
    login okHost testnetworkConnection "bob1" "suchsecret" startedBobWorld
    = (Resolved session, w1)
    ∧ getChaincodeID session = JsString "133c00a3-8555-4aa5-9165-9de9a8f8a838".
Proof.
  destruct (start_then_login_then_dispatch okHost testnetworkConnection bobContext
              "testnetwork" "{}" "bob1" "suchsecret" bob1 "ping" [] bobWorld
              eq_refl eq_refl eq_refl eq_refl)
    as (session & w1 & Hlogin & _ & Hid & _).
  exists session, w1. split; [exact Hlogin|exact Hid].
Defined.


Lemma login_session_resolves_witness :
  is_Some (registered (getChaincode (getChaincodeID bobSession)
             (login okHost testnetworkConnection "bob1" "suchsecret" startedBobWorld).2)).
Proof.
  refine (proj2 (login_session_resolves okHost testnetworkConnection "bob1" "suchsecret"
                   "testnetwork" bobSession startedBobWorld _ _ eq_refl eq_refl eq_refl)).
  intros key id. unfold startedBobWorld.
  rewrite start_businessNetworks, start_chaincodes.
  intros [[_ <-]|[_ Hnone]]%lookup_insert_Some _.
  - eexists. apply lookup_insert_eq.
  - discriminate Hnone.
Defined.

Lemma bobWorld_paired : paired (identities bobWorld).
Proof.
  change (identities bobWorld)
    with (<[identifier bob1 := bob1]> (<["bob1" := bob1]> (∅ : gmap string Identity))).
  intros key record.
  intros [[_ <-]|[_ [[_ <-]|[_ Hnone]]%lookup_insert_Some]]%lookup_insert_Some.
  - reflexivity.
  - reflexivity.
  - discriminate Hnone.
Qed.

Lemma resolved_calls_keep_records_paired_witness :
  paired (identities (createIdentity okHost bobContext "doge" None bobWorld).2).
Proof.
  exact (proj2 (resolved_calls_keep_records_paired okHost bobContext "doge" None bobWorld
                  bobWorld_paired)
           {| userID := "doge"; userSecret := "f892c30a" |}
           (createIdentity okHost bobContext "doge" None bobWorld).2 eq_refl).
Defined.

Lemma issued_credentials_authenticate_witness :
  (testIdentity okHost "doge" "f892c30a"
     (createIdentity okHost bobContext "doge" None bobWorld).2).1
  = Resolved (issued_record okHost "doge" None bobWorld)
  ∧ (testIdentity okHost "doge" "blahblah"
       (createIdentity okHost bobContext "doge" None bobWorld).2).1
    = Rejected (SecretMismatch "blahblah" "doge" "f892c30a").
Proof.
  destruct (issued_credentials_authenticate okHost bobContext "doge" None
              {| userID := "doge"; userSecret := "f892c30a" |} bobWorld
              (createIdentity okHost bobContext "doge" None bobWorld).2 eq_refl eq_refl)
    as (_ & _ & Hright & _ & Hwrong).
  split; [exact Hright|].
  apply Hwrong; discriminate.
Defined.

Lemma issued_secret_is_uuid_prefix_witness :
  is_prefix "f892c30a" "f892c30a-7799-4eac-8377-06da53600e5" = true
  ∧ String.length "f892c30a" = 8.
Proof.
  destruct (issued_secret_is_uuid_prefix okHost bobContext "doge" None
              {| userID := "doge"; userSecret := "f892c30a" |} bobWorld
              (createIdentity okHost bobContext "doge" None bobWorld).2 eq_refl eq_refl)
    as (Hprefix & _ & Hlength).
  split; [exact Hprefix|]. apply Hlength. simpl. lia.
Defined.

Lemma createIdentity_keeps_name_record_on_failure_witness :
  let first := createIdentity clashHost bobContext "doge" None bobWorld in
  first.1 = Rejected (CollectionDuplicate (identifier bob1))
  ∧ is_Some (identities first.2 !! "doge")
  ∧ (createIdentity clashHost bobContext "doge" None first.2).1
    = Resolved {| userID := "doge"; userSecret := "f892c30a" |}.
Proof.
  edestruct (createIdentity_keeps_name_record_on_failure clashHost bobContext "doge" None
               bobWorld) as (Hfirst & Hstore & Hsecond & _).
  - reflexivity.
  - reflexivity.
  - right. eexists. reflexivity.
  - cbv zeta. split_and!.
    + exact Hfirst.
    + rewrite Hstore. eexists. apply lookup_insert_eq.
    + exact Hsecond.
Defined.

Lemma issuer_right_comes_from_options_witness :
  createIdentity okHost
    {| sc_connection := devFabric1;
       getIdentity_sc := issued_record okHost "doge" None bobWorld;
       getChaincodeID := JsNull |} "cat" None bobWorld
  = (Rejected (NotAnIssuer "doge" "cat"), bobWorld).
Proof.
  edestruct (issuer_right_comes_from_options okHost bobContext "doge" None
               {| userID := "doge"; userSecret := "f892c30a" |} bobWorld
               (createIdentity okHost bobContext "doge" None bobWorld).2
               JsNull "cat" bobWorld) as (_ & _ & Hdenied & _).
  - reflexivity.
  - reflexivity.
  - apply Hdenied. by left.
Defined.

Lemma admin_bootstraps_on_first_test_witness :
  (testIdentity okHost "admin" "blahblah" bobWorld).1
  = Resolved (bootstrap_admin okHost bobWorld).
Proof.
  refine (proj1 (admin_bootstraps_on_first_test okHost "blahblah" bobWorld eq_refl _ eq_refl)).
  discriminate.
Defined.

Lemma admin_by_identifier_needs_secret_witness :
  (testIdentity okHost "fingerprint of admin" "adminpw" adminWorld).1
  = Resolved (bootstrap_admin okHost bobWorld)
  ∧ (testIdentity okHost "fingerprint of admin" "blahblah" adminWorld).1
    ≠ Resolved (bootstrap_admin okHost bobWorld).
Proof.
  assert (Hne : identifier (bootstrap_admin okHost bobWorld) ≠ "admin") by discriminate.
  split.
  - apply (proj2 (admin_by_identifier_needs_secret okHost (bootstrap_admin okHost bobWorld)
                    "adminpw" adminWorld eq_refl eq_refl Hne eq_refl eq_refl)).
    reflexivity.
  - intros Hresolved.
    apply (proj2 (admin_by_identifier_needs_secret okHost (bootstrap_admin okHost bobWorld)
                    "blahblah" adminWorld eq_refl eq_refl Hne eq_refl eq_refl))
      in Hresolved.
    discriminate Hresolved.
Defined.

Lemma admin_bootstrap_keeps_name_record_on_failure_witness :
  let first := getIdentity clashHost "admin" bobWorld in
  first.1 = Rejected (CollectionDuplicate (identifier bob1))
  ∧ (getIdentity clashHost "admin" first.2).1
    = Resolved (bootstrap_admin clashHost bobWorld).
Proof.
  edestruct (admin_bootstrap_keeps_name_record_on_failure clashHost bob1 bobWorld)
    as (Hfirst & _ & _ & Hsecond & _).
  - reflexivity.
  - discriminate.
  - reflexivity.
  - cbv zeta. split; [exact Hfirst|exact Hsecond].
Defined.
